(** * A shallow embedding of [homework/http_server.py]

    The server answers one GET request at a time from a webroot directory.
    This development embeds the three layers that carry its behaviour:

    - the response builders [response_ok], [response_not_found],
      [response_method_not_allowed], [response_unsupported_media_type];
    - the request parser [parse_request];
    - the URI resolver [resolve_uri], over an explicit model of the file
      system and of the process working directory, together with the
      dispatch of lines 129-141 of [server].

    Python [bytes] are lists of [Byte.byte]; Python [str] are lists of
    Unicode code points (in [N]).  Exceptions are a result type, and the
    working directory is threaded through a small state-and-error monad.

    What the program takes from its platform is a parameter of the model:
    the MIME database behind [mimetypes.guess_type], and the codec that
    text-mode [open] decodes with.  The file system is a tree of regular
    files, directories and special files; it has no symbolic links and no
    permissions, and the program never writes to it.

    The definitions come first, the properties after them. *)

From Stdlib Require Import List NArith Bool Arith Lia.
From Stdlib Require Import Strings.Ascii Strings.String Strings.Byte.
From Stdlib Require Import Numbers.DecimalString.
Import ListNotations.

Local Open Scope list_scope.
Local Open Scope N_scope.

(* ================================================================= *)
(** ** Sequences: the operations shared by [str] and [bytes] *)

Section Sequences.

Context {A : Type}.
Variable eqb : A -> A -> bool.

  (** [seq_eqb a b] is Python's [a == b] on two sequences. *)
Fixpoint seq_eqb (a b : list A) : bool :=
    match a, b with
    | [], [] => true
    | x :: a', y :: b' => eqb x y && seq_eqb a' b'
    | _, _ => false
    end.

  (** [starts_with p s] is [s.startswith(p)]. *)
Fixpoint starts_with (p s : list A) : bool :=
    match p, s with
    | [], _ => true
    | x :: p', y :: s' => eqb x y && starts_with p' s'
    | _ :: _, [] => false
    end.

  (** [occurs sep s] is [sep in s]. *)
Fixpoint occurs (sep s : list A) : bool :=
    match s with
    | [] => starts_with sep []
    | _ :: t => starts_with sep s || occurs sep t
    end.

  (** [sep.join(parts)]. *)
Fixpoint join (sep : list A) (parts : list (list A)) : list A :=
    match parts with
    | [] => []
    | [p] => p
    | p :: rest => p ++ sep ++ join sep rest
    end.

  (** [partition_at sep s] cuts [s] at the first occurrence of [sep]:
      the text before it and the text after it. *)
Fixpoint partition_at (sep s : list A) : option (list A * list A) :=
    match s with
    | [] => if starts_with sep [] then Some ([], []) else None
    | c :: t =>
        if starts_with sep s then Some ([], skipn (List.length sep) s)
        else match partition_at sep t with
             | Some (a, b) => Some (c :: a, b)
             | None => None
             end
    end.

  (** [s.split(sep, 1)]: at most one cut, so one or two pieces. *)
Definition split1 (sep s : list A) : list (list A) :=
    match partition_at sep s with
    | Some (a, b) => [a; b]
    | None => [s]
    end.

  (** [s.split(c)] for a separator of one element. *)
Fixpoint split_on (c : A) (s : list A) : list (list A) :=
    match s with
    | [] => [[]]
    | x :: t =>
        if eqb x c then [] :: split_on c t
        else match split_on c t with
             | p :: ps => (x :: p) :: ps
             | [] => [[x]]
             end
    end.

  (** [strip_prefix p s] is [s[len(p):]] when [s] starts with [p]. *)
Fixpoint strip_prefix (p s : list A) : option (list A) :=
    match p, s with
    | [], _ => Some s
    | x :: p', y :: s' => if eqb x y then strip_prefix p' s' else None
    | _ :: _, [] => None
    end.

(** [mismatch sep l]: [l] already differs from [sep] at one of its own
    positions, so no text that starts with [l] starts with [sep]. *)
Fixpoint mismatch (sep l : list A) : bool :=
  match sep, l with
  | x :: sep', y :: l' => negb (eqb x y) || mismatch sep' l'
  | _, _ => false
  end.

(** [clear_of sep pre]: no occurrence of [sep] starts inside [pre],
    whatever follows [pre]. *)
Fixpoint clear_of (sep pre : list A) : bool :=
  match pre with
  | [] => true
  | _ :: t => mismatch sep pre && clear_of sep t
  end.

End Sequences.

(* ================================================================= *)
(** ** Python [bytes] and [str] *)

(** A Python [bytes] object. *)
Definition bytes := list byte.

(** A Python [str]: a sequence of Unicode code points. *)
Definition str := list N.

Definition str_eqb : str -> str -> bool := seq_eqb N.eqb.

(** A [bytes] literal [b"..."] and a [str] literal ["..."], written with
    the ASCII characters of a Rocq string. *)
Definition blit (s : string) : bytes := list_byte_of_string s.
Definition ulit (s : string) : str := map Byte.to_N (list_byte_of_string s).

(** The line terminator, as [bytes] ([b"\r\n"]) and as [str] (["\r\n"]). *)
Definition CRLF : bytes := [x0d; x0a].
Definition crlf : str := [13; 10].

Definition byte_of_N (n : N) : byte :=
  match Byte.of_N n with
  | Some c => c
  | None => x00
  end.

(** *** [s.encode('utf8')]

    Python refuses to encode a lone surrogate (U+D800..U+DFFF) with
    UnicodeEncodeError; [None] stands for that failure. *)
Definition encode_char (c : N) : option bytes :=
  if c <? 0x80 then Some [byte_of_N c]
  else if c <? 0x800 then
    Some [byte_of_N (N.lor 0xC0 (N.shiftr c 6));
          byte_of_N (N.lor 0x80 (N.land c 0x3F))]
  else if c <? 0x10000 then
    if (0xD800 <=? c) && (c <? 0xE000) then None
    else Some [byte_of_N (N.lor 0xE0 (N.shiftr c 12));
               byte_of_N (N.lor 0x80 (N.land (N.shiftr c 6) 0x3F));
               byte_of_N (N.lor 0x80 (N.land c 0x3F))]
  else if c <? 0x110000 then
    Some [byte_of_N (N.lor 0xF0 (N.shiftr c 18));
          byte_of_N (N.lor 0x80 (N.land (N.shiftr c 12) 0x3F));
          byte_of_N (N.lor 0x80 (N.land (N.shiftr c 6) 0x3F));
          byte_of_N (N.lor 0x80 (N.land c 0x3F))]
  else None.

Fixpoint encode_utf8 (s : str) : option bytes :=
  match s with
  | [] => Some []
  | c :: t =>
      match encode_char c, encode_utf8 t with
      | Some bs, Some rest => Some (bs ++ rest)
      | _, _ => None
      end
  end.

(** The encodings of a list of names, when every one can be encoded. *)
Fixpoint encode_names (names : list str) : option (list bytes) :=
  match names with
  | [] => Some []
  | n :: rest =>
      match encode_utf8 n, encode_names rest with
      | Some e, Some es => Some (e :: es)
      | _, _ => None
      end
  end.

(** *** Decoding UTF-8 with [errors='strict']

    [None] stands for UnicodeDecodeError: a truncated or overlong
    sequence, a stray continuation byte, a surrogate, or a value above
    U+10FFFF. *)
Definition is_cont (n : N) : bool := (0x80 <=? n) && (n <? 0xC0).

Definition cont_bits (n : N) : N := N.land n 0x3F.

Definition cons_opt (c : N) (rest : option str) : option str :=
  match rest with
  | Some s => Some (c :: s)
  | None => None
  end.

Fixpoint decode_utf8 (bs : bytes) : option str :=
  match bs with
  | [] => Some []
  | b0 :: t0 =>
      let n0 := Byte.to_N b0 in
      if n0 <? 0x80 then cons_opt n0 (decode_utf8 t0)
      else
        match t0 with
        | [] => None
        | b1 :: t1 =>
            let n1 := Byte.to_N b1 in
            if (0xC2 <=? n0) && (n0 <? 0xE0) then
              if is_cont n1
              then cons_opt (N.lor (N.shiftl (N.land n0 0x1F) 6) (cont_bits n1))
                            (decode_utf8 t1)
              else None
            else
              match t1 with
              | [] => None
              | b2 :: t2 =>
                  let n2 := Byte.to_N b2 in
                  if (0xE0 <=? n0) && (n0 <? 0xF0) then
                    let c := N.lor (N.shiftl (N.land n0 0x0F) 12)
                               (N.lor (N.shiftl (cont_bits n1) 6) (cont_bits n2)) in
                    if is_cont n1 && is_cont n2 && (0x800 <=? c)
                       && negb ((0xD800 <=? c) && (c <? 0xE000))
                    then cons_opt c (decode_utf8 t2)
                    else None
                  else
                    match t2 with
                    | [] => None
                    | b3 :: t3 =>
                        let n3 := Byte.to_N b3 in
                        let c := N.lor (N.shiftl (N.land n0 0x07) 18)
                                   (N.lor (N.shiftl (cont_bits n1) 12)
                                      (N.lor (N.shiftl (cont_bits n2) 6)
                                         (cont_bits n3))) in
                        if (0xF0 <=? n0) && (n0 <? 0xF5)
                           && is_cont n1 && is_cont n2 && is_cont n3
                           && (0x10000 <=? c) && (c <? 0x110000)
                        then cons_opt c (decode_utf8 t3)
                        else None
                    end
              end
        end
  end.

(** Text-mode reading translates every ["\r\n"] and every lone ["\r"]
    into ["\n"] (universal newlines, the default of [open(path, "r")]). *)
Fixpoint universal_newlines (s : str) : str :=
  match s with
  | [] => []
  | c :: t =>
      if c =? 13 then
        10 :: match t with
              | d :: t' => if d =? 10 then universal_newlines t'
                           else universal_newlines t
              | [] => []
              end
      else c :: universal_newlines t
  end.

(* ================================================================= *)
(** ** Exceptions *)

(** The two [raise TypeError] of [resolve_uri] (lines 89 and 103) carry
    the same message; the line number tells them apart.  [Line106] is the
    TypeError of subscripting [None] in [mimetype[0]]. *)
Inductive raise_site : Type := Line89 | Line103 | Line106.

Inductive exn : Type :=
| NotImplementedError          (* parse_request: method is not GET *)
| ValueError                   (* parse_request: unpacking a list that has not three items *)
| NameError                    (* resolve_uri: the path does not exist *)
| TypeError (site : raise_site) (* resolve_uri: unsupported media type *)
| AttributeError               (* None.encode *)
| OSError                      (* chdir or open failed *)
| UnicodeDecodeError           (* text-mode read of undecodable bytes *)
| UnicodeEncodeError.          (* encode of a lone surrogate *)

Inductive result (A : Type) : Type :=
| Ok (a : A)
| Raise (e : exn).
Arguments Ok {A} a.
Arguments Raise {A} e.

(* ================================================================= *)
(** ** The response builders *)

Definition response_ok (body mimetype : bytes) : bytes :=
  let resp := [] in
  let resp := resp ++ [blit "HTTP/1.1 200 OK"] in
  let resp := resp ++ [join [] [blit "Content-Type: "; mimetype]] in
  let resp := resp ++ [blit ""] in
  let resp := resp ++ [body] in
  join CRLF resp.

Definition response_method_not_allowed : bytes :=
  let resp := [] in
  let resp := resp ++ [blit "HTTP/1.1 405 Method Not Allowed"] in
  let resp := resp ++ [blit ""] in
  join CRLF resp.

Definition response_not_found : bytes :=
  let resp := [] in
  let resp := resp ++ [blit "HTTP/1.1 404 Not Found"] in
  let resp := resp ++ [blit ""] in
  join CRLF resp.

Definition response_unsupported_media_type : bytes :=
  let resp := [] in
  let resp := resp ++ [blit "HTTP/1.1 415 Unsupported Media Type"] in
  let resp := resp ++ [blit ""] in
  join CRLF resp.

(* ================================================================= *)
(** ** The request parser *)

(** The characters [str.split()] treats as whitespace
    (those for which [str.isspace] holds). *)
Definition isspace (c : N) : bool :=
  ((0x09 <=? c) && (c <=? 0x0D))
  || ((0x1C <=? c) && (c <=? 0x20))
  || (c =? 0x85) || (c =? 0xA0) || (c =? 0x1680)
  || ((0x2000 <=? c) && (c <=? 0x200A))
  || (c =? 0x2028) || (c =? 0x2029) || (c =? 0x202F)
  || (c =? 0x205F) || (c =? 0x3000).

(** [s.split()]: the maximal runs of non-whitespace characters.
    [tok] is the run being read. *)
Fixpoint split_ws (tok : str) (s : str) : list str :=
  match s with
  | [] => match tok with [] => [] | _ => [tok] end
  | c :: t =>
      if isspace c
      then match tok with
           | [] => split_ws [] t
           | _ => tok :: split_ws [] t
           end
      else split_ws (tok ++ [c]) t
  end.

Definition py_split (s : str) : list str := split_ws [] s.

(** [request.split("\r\n", 1)[0]] *)
Definition first_line (request : str) : str :=
  nth 0 (split1 N.eqb crlf request) [].

Definition parse_request (request : str) : result str :=
  let first_line := first_line request in
  match py_split first_line with
  | [method; uri; protocol] =>
      if negb (str_eqb method (ulit "GET"))
      then Raise NotImplementedError
      else Ok uri
  | _ => Raise ValueError
  end.

(* ================================================================= *)
(** ** The file system and the working directory *)

(** A file-system object: a regular file with its bytes, a directory with
    its entries in the order the system lists them, or an object that is
    neither (a FIFO, a socket, a device).  Symbolic links and permissions
    are outside the model. *)
#[local] Unset Elimination Schemes.
Inductive node : Type :=
| File (data : bytes)
| Dir (entries : list (str * node))
| Special.
#[local] Set Elimination Schemes.

(** A place in the tree: the entry names from the root down. *)
Definition location := list str.

Fixpoint assoc (name : str) (es : list (str * node)) : option node :=
  match es with
  | [] => None
  | (n, x) :: rest => if str_eqb n name then Some x else assoc name rest
  end.

Fixpoint lookup (n : node) (loc : location) : option node :=
  match loc with
  | [] => Some n
  | c :: rest =>
      match n with
      | Dir es =>
          match assoc c es with
          | Some child => lookup child rest
          | None => None
          end
      | _ => None
      end
  end.

Definition slash : N := 47.
Definition dot : N := 46.

(** [os.path.basename(p)]: what follows the last slash. *)
Definition basename (p : str) : str := last (split_on N.eqb slash p) [].

(** Names that start with a dot; [glob.glob("*")] leaves them out. *)
Definition hidden (name : str) : bool := starts_with N.eqb [dot] name.

Definition is_prefix_of (a c : location) : bool := starts_with str_eqb a c.

(** The value of the variable [mimetype] of [resolve_uri]: Python's [None],
    or a pair [(type, encoding)] whose components may be [None]. *)
Definition guess : Type := option (option str * option str).

Definition text_plain : str := ulit "text/plain".

Section Server.

(** The tree the server runs on: never written by the program. *)
Variable fs : node.

(** [mimetypes.guess_type]: the lookup of Python's MIME database, which
    is not part of this program. *)
Variable guess_type : str -> guess.

(** The decoder of text-mode [open(path, "r")]: the codec of the
    platform's locale, with strict errors ([None]: UnicodeDecodeError). *)
Variable decode_text : bytes -> option str.

(** *** Path resolution *)

(** One component of a path, from the place [cur]: the place must be a
    directory; an empty component and ["."] stay there, [".."] goes to
    the parent (the root is its own parent), a name goes to that entry. *)
Definition enter (cur : location) (comp : str) : option location :=
  match lookup fs cur with
  | Some (Dir es) =>
      if str_eqb comp [] || str_eqb comp (ulit ".") then Some cur
      else if str_eqb comp (ulit "..") then Some (removelast cur)
      else match assoc comp es with
           | Some _ => Some (cur ++ [comp])
           | None => None
           end
  | _ => None
  end.

Fixpoint walk (cur : location) (comps : list str) : option location :=
  match comps with
  | [] => Some cur
  | c :: cs =>
      match enter cur c with
      | Some cur' => walk cur' cs
      | None => None
      end
  end.

(** The place a path names, from the working directory [cwd]: a path
    that starts with a slash is walked from the root. *)
Definition locate (cwd : location) (path : str) : option location :=
  match path with
  | [] => None
  | c :: _ => walk (if c =? slash then [] else cwd) (split_on N.eqb slash path)
  end.

Definition stat (cwd : location) (path : str) : option node :=
  match locate cwd path with
  | Some loc => lookup fs loc
  | None => None
  end.

(** *** The monad: the working directory as state, exceptions as results *)

Definition M (A : Type) : Type := location -> result A * location.

Definition ret {A} (a : A) : M A := fun cwd => (Ok a, cwd).

Definition raise {A} (e : exn) : M A := fun cwd => (Raise e, cwd).

Definition bind {A B} (m : M A) (k : A -> M B) : M B :=
  fun cwd =>
    match m cwd with
    | (Ok a, cwd') => k a cwd'
    | (Raise e, cwd') => (Raise e, cwd')
    end.

Notation "x <- m ;; k" := (bind m (fun x => k))
  (at level 100, m at next level, right associativity).
Notation "m ;; k" := (bind m (fun _ => k))
  (at level 100, right associativity).

(** [os.path.abspath(os.curdir)] *)
Definition abspath_curdir : M location := fun cwd => (Ok cwd, cwd).

(** [os.chdir(path)] *)
Definition chdir (path : str) : M unit :=
  fun cwd =>
    match locate cwd path with
    | Some loc =>
        match lookup fs loc with
        | Some (Dir _) => (Ok tt, loc)
        | _ => (Raise OSError, cwd)
        end
    | None => (Raise OSError, cwd)
    end.

(** [os.chdir(startup_dir)]: [startup_dir] is the absolute path of the
    directory the process was in, and the tree has not changed since. *)
Definition chdir_back (startup_dir : location) : M unit :=
  fun _ => (Ok tt, startup_dir).

Definition path_exists (path : str) : M bool :=
  fun cwd => (Ok (match stat cwd path with Some _ => true | None => false end), cwd).

Definition path_isdir (path : str) : M bool :=
  fun cwd => (Ok (match stat cwd path with Some (Dir _) => true | _ => false end), cwd).

Definition path_isfile (path : str) : M bool :=
  fun cwd => (Ok (match stat cwd path with Some (File _) => true | _ => false end), cwd).

(** [glob.glob("*")]: the entries of the working directory whose names
    do not start with a dot, in the order the system lists them. *)
Definition glob_star : M (list str) :=
  fun cwd =>
    (Ok (match lookup fs cwd with
         | Some (Dir es) => filter (fun n => negb (hidden n)) (map fst es)
         | _ => []
         end), cwd).

(** [open(path, "r").read()] *)
Definition read_text (path : str) : M str :=
  fun cwd =>
    match stat cwd path with
    | Some (File data) =>
        match decode_text data with
        | Some s => (Ok (universal_newlines s), cwd)
        | None => (Raise UnicodeDecodeError, cwd)
        end
    | _ => (Raise OSError, cwd)
    end.

(** [open(path, "rb").read()] *)
Definition read_bytes (path : str) : M bytes :=
  fun cwd =>
    match stat cwd path with
    | Some (File data) => (Ok data, cwd)
    | _ => (Raise OSError, cwd)
    end.

(** [s.encode('utf8')] *)
Definition encode (s : str) : M bytes :=
  match encode_utf8 s with
  | Some bs => ret bs
  | None => raise UnicodeEncodeError
  end.

(** [for item in dirlist: resp.append(item.encode('utf8'))] *)
Fixpoint append_encoded (resp : list bytes) (dirlist : list str) : M (list bytes) :=
  match dirlist with
  | [] => ret resp
  | item :: rest =>
      e <- encode item ;;
      append_encoded (resp ++ [e]) rest
  end.

(** [mimetype[0].encode('utf8')] *)
Definition encode_first (mimetype : guess) : M bytes :=
  match mimetype with
  | None => raise (TypeError Line106)
  | Some (None, _) => raise AttributeError
  | Some (Some t, _) => encode t
  end.

(** [mimetype[0] == "text/plain"] *)
Definition is_text_plain (t : option str) : bool :=
  match t with
  | Some s => str_eqb s text_plain
  | None => false
  end.

(** *** The resolver *)

Definition resolve_uri (uri webroot : str) : M (bytes * bytes) :=
  startup_dir <- abspath_curdir ;;
  chdir webroot ;;
  let relative_uri := ulit "." ++ uri in
  let resp := [] in
  found <- path_exists relative_uri ;;
  branch <-
    (if negb found then
       chdir_back startup_dir ;;
       raise NameError
     else
       isdir <- path_isdir relative_uri ;;
       if isdir then
         chdir relative_uri ;;
         dirlist <- glob_star ;;
         resp <- append_encoded resp dirlist ;;
         ret (resp, Some (Some text_plain, None))
       else
         isfile <- path_isfile relative_uri ;;
         if isfile then
           let filename := basename relative_uri in
           let mimetype := guess_type filename in
           match mimetype with
           | None => raise (TypeError Line89)
           | Some (t, _) =>
               if is_text_plain t then
                 text <- read_text relative_uri ;;
                 e <- encode text ;;
                 ret (resp ++ [e], mimetype)
               else
                 data <- read_bytes relative_uri ;;
                 ret (resp ++ [data], mimetype)
           end
         else
           chdir_back startup_dir ;;
           raise (TypeError Line103)) ;;
  let '(resp, mimetype) := branch in
  chdir_back startup_dir ;;
  let body := join CRLF resp in
  mt <- encode_first mimetype ;;
  ret (body, mt).

(** *** The dispatch of [server] (lines 129-141): the response sent for a
    decoded request, or the exception that escapes the handler. *)
Definition server_respond (request webroot : str) : M bytes :=
  fun cwd =>
    match parse_request request with
    | Raise NotImplementedError => (Ok response_method_not_allowed, cwd)
    | Raise e => (Raise e, cwd)
    | Ok uri =>
        match resolve_uri uri webroot cwd with
        | (Raise NameError, cwd') => (Ok response_not_found, cwd')
        | (Raise (TypeError _), cwd') => (Ok response_unsupported_media_type, cwd')
        | (Raise e, cwd') => (Raise e, cwd')
        | (Ok (content, mime_type), cwd') => (Ok (response_ok content mime_type), cwd')
        end
    end.

End Server.

(* ================================================================= *)
(** ** Reading a response back

    The structural reading of the response layout: the header block is
    what precedes the first blank line, the body what follows it; the
    status line is the first line of the block, the status code its second
    word, and the Content-Type value what follows ["Content-Type: "] on
    the next line. *)

Definition space_byte : byte := x20.

Definition parse_response (resp : bytes) : option (bytes * bytes * bytes) :=
  match partition_at Byte.eqb (CRLF ++ CRLF) resp with
  | Some (head, body) =>
      match partition_at Byte.eqb CRLF head with
      | Some (status_line, header) =>
          match split_on Byte.eqb space_byte status_line,
                strip_prefix Byte.eqb (blit "Content-Type: ") header with
          | _ :: code :: _, Some content_type => Some (code, content_type, body)
          | _, _ => None
          end
      | None => None
      end
  | None => None
  end.

(** [ends_with p s] is [s.endswith(p)]. *)
Definition ends_with (p s : bytes) : bool :=
  starts_with Byte.eqb (rev p) (rev s).

(** [body.split(b"\r\n")]: the lines of a body; [cur] is the line being
    read. *)
Fixpoint split_lines (cur : bytes) (s : bytes) : list bytes :=
  match s with
  | [] => [cur]
  | c :: t =>
      if Byte.eqb c x0d then
        match t with
        | d :: t' =>
            if Byte.eqb d x0a then cur :: split_lines [] t'
            else split_lines (cur ++ [c]) t
        | [] => [cur ++ [c]]
        end
      else split_lines (cur ++ [c]) t
  end.

Definition body_lines (body : bytes) : list bytes := split_lines [] body.

(* ================================================================= *)
(** ** Request lines, described without the parser *)

(** [line] is the text of [request] before its first line terminator
    (all of it, when it has none). *)
Definition is_first_line (line request : str) : Prop :=
  occurs N.eqb crlf line = false /\
  (request = line \/ exists rest, request = line ++ crlf ++ rest).

Definition all_space (w : str) : Prop := forallb isspace w = true.

(** A token: a non-empty run of characters that are not whitespace. *)
Definition token (t : str) : Prop :=
  t <> [] /\ forallb (fun c => negb (isspace c)) t = true.

(** [line] consists of exactly the three tokens [method], [uri] and
    [protocol], separated (and possibly surrounded) by whitespace. *)
Definition three_tokens (line method uri protocol : str) : Prop :=
  exists w0 w1 w2 w3,
    line = w0 ++ method ++ w1 ++ uri ++ w2 ++ protocol ++ w3 /\
    all_space w0 /\ all_space w1 /\ all_space w2 /\ all_space w3 /\
    w1 <> [] /\ w2 <> [] /\
    token method /\ token uri /\ token protocol.

(* ================================================================= *)
(** ** A concrete server, for evaluation *)

(** A small extension table in the place of Python's MIME database: the
    type is looked up from what follows the last dot of the file name. *)
Definition extension (filename : str) : option str :=
  match split_on N.eqb dot filename with
  | [] | [_] => None
  | [[]; _] => None
  | parts => Some (last parts [])
  end.

Definition sample_types_map : list (str * str) :=
  [ (ulit "txt", ulit "text/plain");
    (ulit "html", ulit "text/html");
    (ulit "png", ulit "image/png");
    (ulit "jpg", ulit "image/jpeg");
    (ulit "py", ulit "text/x-python") ].

Fixpoint types_map_get (ext : str) (table : list (str * str)) : option str :=
  match table with
  | [] => None
  | (e, t) :: rest => if str_eqb e ext then Some t else types_map_get ext rest
  end.

Definition sample_guess_type (filename : str) : guess :=
  match extension filename with
  | Some ext => Some (types_map_get ext sample_types_map, None)
  | None => Some (None, None)
  end.

(** The tree

<<
    /srv/secret.txt
    /srv/webroot/a.txt
    /srv/webroot/bad.txt       (not UTF-8)
    /srv/webroot/blob.qqq      (no MIME type)
    /srv/webroot/logo.png
    /srv/webroot/pipe          (a FIFO)
    /srv/webroot/sub/          (empty)
    /srv/webroot/images/pic.png
    /srv/webroot/images/.hidden
    /srv/webroot/images/notes.txt
>> *)
Definition sample_png : bytes := [x89; x50; x4e; x47; x0d; x0a; x1a; x0a].

Definition sample_webroot : node :=
  Dir [ (ulit "a.txt", File (blit "hello"));
        (ulit "bad.txt", File [xff]);
        (ulit "blob.qqq", File [x00; x01]);
        (ulit "logo.png", File sample_png);
        (ulit "pipe", Special);
        (ulit "sub", Dir []);
        (ulit "images",
          Dir [ (ulit "pic.png", File sample_png);
                (ulit ".hidden", File (blit "x"));
                (ulit "notes.txt", File (blit "n")) ]) ].

Definition sample_fs : node :=
  Dir [ (ulit "srv",
          Dir [ (ulit "secret.txt", File (blit "top secret"));
                (ulit "webroot", sample_webroot) ]) ].

Definition sample_webroot_path : str := ulit "/srv/webroot".
Definition sample_webroot_loc : location := [ulit "srv"; ulit "webroot"].
Definition sample_cwd : location := [ulit "srv"].

Definition sample_resolve_uri (uri : str) : result (bytes * bytes) * location :=
  resolve_uri sample_fs sample_guess_type decode_utf8 uri sample_webroot_path sample_cwd.

Definition sample_server_respond (request : str) : result bytes * location :=
  server_respond sample_fs sample_guess_type decode_utf8 request sample_webroot_path sample_cwd.

(* ================================================================= *)
(** ** The results of the file branch and of the directory branch *)

(** What [resolve_uri] gives for a regular file with bytes [data] and base
    name [name]; [W] is the webroot and [cwd] the directory the process
    started in (the second component is the directory it ends in). *)
Definition file_outcome (guess_type : str -> guess) (decode_text : bytes -> option str)
  (cwd W : location) (name : str) (data : bytes)
  : result (bytes * bytes) * location :=
  match guess_type name with
  | None => (Raise (TypeError Line89), W)
  | Some (t, enc) =>
      if is_text_plain t then
        match decode_text data with
        | None => (Raise UnicodeDecodeError, W)
        | Some s =>
            match encode_utf8 (universal_newlines s) with
            | None => (Raise UnicodeEncodeError, W)
            | Some body => (Ok (body, blit "text/plain"), cwd)
            end
        end
      else
        match t with
        | None => (Raise AttributeError, cwd)
        | Some mt =>
            match encode_utf8 mt with
            | None => (Raise UnicodeEncodeError, cwd)
            | Some mtb => (Ok (data, mtb), cwd)
            end
        end
  end.

(** What [resolve_uri] gives for the directory at [D] with entries [es]. *)
Definition dir_outcome (cwd D : location) (es : list (str * node))
  : result (bytes * bytes) * location :=
  match encode_names (filter (fun n => negb (hidden n)) (map fst es)) with
  | Some encs => (Ok (join CRLF encs, blit "text/plain"), cwd)
  | None => (Raise UnicodeEncodeError, D)
  end.

(* ================================================================= *)
(** ** The connection handler and the listener loop of [server] *)

(** A client: the address [sock.accept()] reports for it, and what
    [conn.recv(1024)] returns, call after call.  When the list is used up
    the client has closed its side, and [recv] returns [b""]. *)
Record client : Type := {
  peer_host : str;
  peer_port : N;
  chunks : list bytes
}.

Definition bufsize : nat := 1024.

(** One turn of the read loop (lines 124-126): the chunk is decoded and
    appended, and the loop stops when the chunk is short. *)
Definition recv_step (request : str) (data : bytes) : result (str * bool) :=
  match decode_utf8 data with
  | None => Raise UnicodeDecodeError
  | Some text => Ok (request ++ text, Nat.ltb (List.length data) bufsize)
  end.

(** The read loop of lines 122-127. *)
Fixpoint recv_request (request : str) (chunks : list bytes) : result str :=
  match chunks with
  | [] =>
      match recv_step request [] with
      | Ok (request, _) => Ok request
      | Raise e => Raise e
      end
  | data :: rest =>
      match recv_step request data with
      | Ok (request, true) => Ok request
      | Ok (request, false) => recv_request request rest
      | Raise e => Raise e
      end
  end.

(** [str(n)], as [format] prints an integer. *)
Definition decimal (n : N) : str := ulit (NilEmpty.string_of_uint (N.to_uint n)).

(** What happened to a connection: the bytes given to [conn.sendall], if
    it was called, and whether [conn.close()] was called. *)
Record served : Type := {
  sent : option bytes;
  closed : bool
}.

(** How [server] ends: by the KeyboardInterrupt it catches, or by another
    exception, which it lets through. *)
Inductive ending : Type :=
| Interrupted
| Crashed (e : exn).

Section Listener.

Variable fs : node.
Variable guess_type : str -> guess.
Variable decode_text : bytes -> option str.
Variable webroot : str.

(** Lines 118-146, for one client: the lines printed to the log, what was
    done to the connection, the exception that leaves the [try] block if
    there is one, and the working directory afterwards. *)
Definition handle_connection (c : client) (cwd : location)
  : list str * served * result unit * location :=
  let log :=
    [ulit "waiting for a connection";
     ulit "connection - " ++ peer_host c ++ ulit ":" ++ decimal (peer_port c)] in
  match recv_request [] (chunks c) with
  | Raise e => (log, {| sent := None; closed := true |}, Raise e, cwd)
  | Ok request =>
      match server_respond fs guess_type decode_text request webroot cwd with
      | (Raise e, cwd') =>
          (log, {| sent := None; closed := true |}, Raise e, cwd')
      | (Ok response, cwd') =>
          (log ++ [ulit "sending response"],
           {| sent := Some response; closed := true |}, Ok tt, cwd')
      end
  end.

(** The [while True] loop of lines 117-146 over the clients that connect
    before the interrupt; the interrupt comes while [accept] waits. *)
Fixpoint accept_loop (clients : list client) (cwd : location)
  : list str * list served * ending * location :=
  match clients with
  | [] => ([ulit "waiting for a connection"], [], Interrupted, cwd)
  | c :: rest =>
      match handle_connection c cwd with
      | (log, s, Raise e, cwd') => (log, [s], Crashed e, cwd')
      | (log, s, Ok _, cwd') =>
          match accept_loop rest cwd' with
          | (log', ss, e, cwd'') => (log ++ log', s :: ss, e, cwd'')
          end
      end
  end.

Definition server (clients : list client) (cwd : location)
  : list str * list served * ending * location :=
  match accept_loop clients cwd with
  | (log, ss, e, cwd') =>
      (ulit "making a server on 127.0.0.1:10001" :: log, ss, e, cwd')
  end.

End Listener.

(** The chunks [fulls] are read in full turns of the loop: each one
    decodes, to the matching text of [texts], and fills the buffer. *)
Definition full_chunks (fulls : list bytes) (texts : list str) : Prop :=
  Forall2 (fun data text =>
             decode_utf8 data = Some text
             /\ (bufsize <= List.length data)%nat) fulls texts.

(** A request that is valid UTF-8 as a whole, cut inside its last
    character (U+00E9) by the size of the buffer. *)
Definition split_request_head : bytes := repeat x61 1023 ++ [xc3].
Definition split_request_tail : bytes := [xa9].

(** The first line of a response. *)
Definition status_line (resp : bytes) : bytes :=
  nth 0 (split1 Byte.eqb CRLF resp) [].

Definition status_lines : list bytes :=
  [ blit "HTTP/1.1 200 OK";
    blit "HTTP/1.1 404 Not Found";
    blit "HTTP/1.1 405 Method Not Allowed";
    blit "HTTP/1.1 415 Unsupported Media Type" ].

(** A line made of the tokens [ts], each followed by whitespace, which is
    not empty between two tokens. *)
Inductive token_line : list str -> str -> Prop :=
| token_line_end : token_line [] []
| token_line_last t w :
    token t -> all_space w -> token_line [t] (t ++ w)
| token_line_more t w ts rest :
    token t -> all_space w -> w <> [] -> ts <> [] ->
    token_line ts rest -> token_line (t :: ts) (t ++ w ++ rest).

(** A text file with a DOS line ending, alone in a webroot. *)
Definition dos_text : bytes := blit "a" ++ CRLF ++ blit "b".

Definition dos_fs : node :=
  Dir [ (ulit "srv",
          Dir [ (ulit "webroot", Dir [ (ulit "dos.txt", File dos_text) ]) ]) ].

Definition sample_server (clients : list client)
  : list str * list served * ending * location :=
  server sample_fs sample_guess_type decode_utf8 sample_webroot_path clients sample_cwd.

(* ================================================================= *)
(** * Properties *)

(** ** Sequences *)

Section SequenceFacts.

Context {A : Type}.
Variable eqb : A -> A -> bool.
Hypothesis eqb_spec : forall x y, reflect (x = y) (eqb x y).

Lemma seq_eqb_spec a b : reflect (a = b) (seq_eqb eqb a b).
Proof.
  revert b; induction a as [|x a IH]; intros [|y b]; simpl;
    try (constructor; congruence).
  destruct (eqb_spec x y) as [->|Hxy]; simpl.
  - destruct (IH b) as [->|Hab]; constructor; congruence.
  - constructor; congruence.
Qed.

Lemma eqb_refl_of_spec x : eqb x x = true.
Proof. destruct (eqb_spec x x); congruence. Qed.

Lemma eqb_neq_of_spec x y : x <> y -> eqb x y = false.
Proof. intros H; destruct (eqb_spec x y); congruence. Qed.

Lemma strip_prefix_app p s : strip_prefix eqb p (p ++ s) = Some s.
Proof.
  induction p as [|x p IH]; simpl; [reflexivity|].
  now rewrite eqb_refl_of_spec.
Qed.

Lemma join_cons (sep a b : list A) rest :
  join sep (a :: b :: rest) = a ++ sep ++ join sep (b :: rest).
Proof. reflexivity. Qed.

Lemma partition_at_cons sep c s :
  partition_at eqb sep (c :: s)
  = if starts_with eqb sep (c :: s)
    then Some ([], skipn (List.length sep) (c :: s))
    else match partition_at eqb sep s with
         | Some (a, b) => Some (c :: a, b)
         | None => None
         end.
Proof. reflexivity. Qed.

Lemma mismatch_starts_with sep l s :
  mismatch eqb sep l = true -> starts_with eqb sep (l ++ s) = false.
Proof.
  revert l; induction sep as [|x sep IH]; intros [|y l]; simpl; try discriminate.
  destruct (eqb x y); simpl; [apply IH | reflexivity].
Qed.

(** A prefix in which no occurrence of the separator starts is skipped
    by the cut. *)
Lemma partition_at_skip sep pre s :
  clear_of eqb sep pre = true ->
  partition_at eqb sep (pre ++ s)
  = match partition_at eqb sep s with
    | Some (a, b) => Some (pre ++ a, b)
    | None => None
    end.
Proof.
  induction pre as [|c pre IH]; intros Hc.
  - simpl. destruct (partition_at eqb sep s) as [[a b]|]; reflexivity.
  - simpl in Hc. apply andb_true_iff in Hc. destruct Hc as [Hm Hc].
    change ((c :: pre) ++ s) with (c :: (pre ++ s)).
    rewrite partition_at_cons.
    change (c :: (pre ++ s)) with ((c :: pre) ++ s).
    rewrite (mismatch_starts_with sep (c :: pre) s Hm), (IH Hc).
    destruct (partition_at eqb sep s) as [[a b]|]; reflexivity.
Qed.

(** *** Cutting at a two-element separator [x; y] with [x <> y]
    (the line terminator), and at its double [x; y; x; y]. *)

Variables x y : A.
Hypothesis x_neq_y : x <> y.

Lemma occurs_pair_cons c s :
  occurs eqb [x; y] (c :: s) = false ->
  starts_with eqb [x; y] (c :: s) = false /\ occurs eqb [x; y] s = false.
Proof. simpl. intros H. apply orb_false_iff in H. exact H. Qed.

(** Before the separator that follows it, a text free of [x; y] holds
    no start of [x; y] nor of [x; y; x; y]. *)
Lemma no_start_before_pair c line tail :
  starts_with eqb [x; y] (c :: line) = false ->
  starts_with eqb [x; y] ((c :: line) ++ x :: y :: tail) = false.
Proof.
  simpl. destruct (eqb x c); [|reflexivity]. simpl.
  destruct line as [|d line]; simpl.
  - intros _. now rewrite (eqb_neq_of_spec y x (not_eq_sym x_neq_y)).
  - destruct (eqb y d); [discriminate|reflexivity].
Qed.

Lemma no_start_before_double c block tail :
  starts_with eqb [x; y] (c :: block) = false ->
  starts_with eqb [x; y; x; y] ((c :: block) ++ x :: y :: tail) = false.
Proof.
  simpl. destruct (eqb x c); [|reflexivity]. simpl.
  destruct block as [|d block]; simpl.
  - intros _. now rewrite (eqb_neq_of_spec y x (not_eq_sym x_neq_y)).
  - destruct (eqb y d); [discriminate|reflexivity].
Qed.

Lemma partition_at_first_pair line rest :
  occurs eqb [x; y] line = false ->
  partition_at eqb [x; y] (line ++ x :: y :: rest) = Some (line, rest).
Proof.
  induction line as [|c line IH]; intros Hno.
  - simpl. now rewrite !eqb_refl_of_spec.
  - apply occurs_pair_cons in Hno. destruct Hno as [Hhd Htl].
    pose proof (no_start_before_pair c line rest Hhd) as Hsw.
    change ((c :: line) ++ x :: y :: rest)
      with (c :: (line ++ x :: y :: rest)) in *.
    now rewrite partition_at_cons, Hsw, (IH Htl).
Qed.

Lemma partition_at_no_pair s :
  occurs eqb [x; y] s = false -> partition_at eqb [x; y] s = None.
Proof.
  induction s as [|c s IH]; intros Hno; [reflexivity|].
  apply occurs_pair_cons in Hno. destruct Hno as [Hhd Htl].
  now rewrite partition_at_cons, Hhd, (IH Htl).
Qed.

Lemma partition_at_first_double block rest :
  occurs eqb [x; y] block = false ->
  partition_at eqb [x; y; x; y] (block ++ x :: y :: x :: y :: rest)
  = Some (block, rest).
Proof.
  induction block as [|c block IH]; intros Hno.
  - simpl. now rewrite !eqb_refl_of_spec.
  - apply occurs_pair_cons in Hno. destruct Hno as [Hhd Htl].
    pose proof (no_start_before_double c block (x :: y :: rest) Hhd) as Hsw.
    change ((c :: block) ++ x :: y :: x :: y :: rest)
      with (c :: (block ++ x :: y :: x :: y :: rest)) in *.
    now rewrite partition_at_cons, Hsw, (IH Htl).
Qed.

End SequenceFacts.

(** ** Equality tests *)

Lemma byte_eqb_spec (a c : byte) : reflect (a = c) (Byte.eqb a c).
Proof.
  destruct (Byte.eqb a c) eqn:E; constructor.
  - now apply Byte.byte_dec_bl.
  - now apply Byte.eqb_false.
Qed.

Lemma str_eqb_spec (s t : str) : reflect (s = t) (str_eqb s t).
Proof. apply seq_eqb_spec, N.eqb_spec. Qed.

Lemma str_eqb_refl (s : str) : str_eqb s s = true.
Proof. destruct (str_eqb_spec s s); congruence. Qed.

Lemma str_eqb_neq (s t : str) : s <> t -> str_eqb s t = false.
Proof. intros H; destruct (str_eqb_spec s t); congruence. Qed.

Lemma cr_neq_lf_byte : x0d <> x0a.
Proof. discriminate. Qed.

Lemma cr_neq_lf : (13 : N) <> 10.
Proof. discriminate. Qed.

(* ================================================================= *)
(** ** The response builders *)

Lemma response_ok_layout (body mimetype : bytes) :
  response_ok body mimetype
  = blit "HTTP/1.1 200 OK" ++ CRLF
    ++ (blit "Content-Type: " ++ mimetype) ++ CRLF
    ++ CRLF ++ body.
Proof.
  unfold response_ok. cbn [app join]. reflexivity.
Qed.

(** C3. The three canned responses are their status line followed by one
    line terminator and nothing else: none of them ends with the blank
    line (CRLF CRLF) that closes the header block, which [response_ok]
    does emit between its header and its body. *)
Theorem canned_responses_lack_blank_line :
  response_not_found = blit "HTTP/1.1 404 Not Found" ++ CRLF
  /\ response_method_not_allowed = blit "HTTP/1.1 405 Method Not Allowed" ++ CRLF
  /\ response_unsupported_media_type
     = blit "HTTP/1.1 415 Unsupported Media Type" ++ CRLF
  /\ ends_with (CRLF ++ CRLF) response_not_found = false
  /\ ends_with (CRLF ++ CRLF) response_method_not_allowed = false
  /\ ends_with (CRLF ++ CRLF) response_unsupported_media_type = false
  /\ ends_with (CRLF ++ CRLF) (response_ok [] (blit "text/plain")) = true.
Proof. repeat split; reflexivity. Qed.

(** C7, as stated, fails: a mimetype that itself holds a blank line moves
    the cut, and neither the Content-Type value nor the body comes back. *)
Lemma response_ok_roundtrip_counterexample :
  let mimetype := blit "a" ++ CRLF ++ CRLF ++ blit "b" in
  let body := blit "x" in
  parse_response (response_ok body mimetype)
  = Some (blit "200", blit "a", blit "b" ++ CRLF ++ CRLF ++ blit "x")
  /\ parse_response (response_ok body mimetype)
     <> Some (blit "200", mimetype, body).
Proof. split; [reflexivity | discriminate]. Qed.

Lemma response_ok_cut (body mimetype : bytes) :
  occurs Byte.eqb CRLF mimetype = false ->
  partition_at Byte.eqb (CRLF ++ CRLF) (response_ok body mimetype)
  = Some (blit "HTTP/1.1 200 OK" ++ CRLF ++ blit "Content-Type: " ++ mimetype,
          body).
Proof.
  intros Hmt. rewrite response_ok_layout.
  replace (blit "HTTP/1.1 200 OK" ++ CRLF
           ++ (blit "Content-Type: " ++ mimetype) ++ CRLF ++ CRLF ++ body)
    with ((blit "HTTP/1.1 200 OK" ++ CRLF ++ blit "Content-Type: ")
          ++ (mimetype ++ x0d :: x0a :: x0d :: x0a :: body))
    by (now rewrite <- !app_assoc).
  rewrite (partition_at_skip Byte.eqb) by reflexivity.
  change (CRLF ++ CRLF) with [x0d; x0a; x0d; x0a].
  rewrite (partition_at_first_double Byte.eqb byte_eqb_spec x0d x0a
             cr_neq_lf_byte mimetype body Hmt).
  now rewrite <- !app_assoc.
Qed.

(** C7, amended. For every body, and every mimetype that holds no line
    terminator, reading [response_ok body mimetype] back gives status
    200, the same Content-Type value and the same body. *)
Theorem response_ok_roundtrip (body mimetype : bytes) :
  occurs Byte.eqb CRLF mimetype = false ->
  parse_response (response_ok body mimetype)
  = Some (blit "200", mimetype, body).
Proof.
  intros Hmt. unfold parse_response.
  rewrite (response_ok_cut body mimetype Hmt).
  unfold CRLF. cbn [app].
  rewrite (partition_at_first_pair Byte.eqb byte_eqb_spec x0d x0a
             cr_neq_lf_byte (blit "HTTP/1.1 200 OK")
             (blit "Content-Type: " ++ mimetype) eq_refl).
  rewrite (strip_prefix_app Byte.eqb byte_eqb_spec).
  reflexivity.
Qed.

Lemma response_ok_roundtrip_witness :
  occurs Byte.eqb CRLF (blit "text/plain") = false
  /\ parse_response (response_ok (blit "hello") (blit "text/plain"))
     = Some (blit "200", blit "text/plain", blit "hello").
Proof.
  split; [reflexivity|].
  apply (response_ok_roundtrip (blit "hello") (blit "text/plain")).
  reflexivity.
Defined.

(* ================================================================= *)
(** ** The request parser *)

Lemma first_line_of (line request : str) :
  is_first_line line request -> first_line request = line.
Proof.
  intros [Hno [-> | [rest ->]]]; unfold first_line, split1, crlf in *; cbn [app].
  - now rewrite (partition_at_no_pair N.eqb 13 10 line Hno).
  - now rewrite (partition_at_first_pair N.eqb N.eqb_spec 13 10 cr_neq_lf line rest Hno).
Qed.

Lemma split_ws_spaces (w s : str) :
  all_space w -> split_ws [] (w ++ s) = split_ws [] s.
Proof.
  unfold all_space. induction w as [|c w IH]; intros Hw; [reflexivity|].
  simpl in Hw. apply andb_true_iff in Hw. destruct Hw as [Hc Hw].
  simpl. rewrite Hc. now apply IH.
Qed.

Lemma split_ws_run (acc t s : str) :
  forallb (fun c => negb (isspace c)) t = true ->
  split_ws acc (t ++ s) = split_ws (acc ++ t) s.
Proof.
  revert acc; induction t as [|c t IH]; intros acc Ht.
  - now rewrite app_nil_r.
  - simpl in Ht. apply andb_true_iff in Ht. destruct Ht as [Hc Ht].
    apply negb_true_iff in Hc. simpl. rewrite Hc.
    rewrite (IH _ Ht). now rewrite <- app_assoc.
Qed.

Lemma split_ws_close (acc w s : str) :
  acc <> [] -> w <> [] -> all_space w ->
  split_ws acc (w ++ s) = acc :: split_ws [] s.
Proof.
  intros Hacc Hw Hsp. destruct w as [|c w]; [congruence|].
  unfold all_space in Hsp. simpl in Hsp.
  apply andb_true_iff in Hsp. destruct Hsp as [Hc Hsp].
  simpl. rewrite Hc. destruct acc as [|a acc]; [congruence|].
  f_equal. now apply split_ws_spaces.
Qed.

Lemma split_ws_end (acc w : str) :
  acc <> [] -> all_space w -> split_ws acc w = [acc].
Proof.
  intros Hacc Hsp. destruct w as [|c w].
  - simpl. destruct acc; congruence.
  - rewrite <- (app_nil_r (c :: w)).
    rewrite (split_ws_close acc (c :: w) []); [reflexivity|assumption|discriminate|assumption].
Qed.

Lemma py_split_three_tokens (line method uri protocol : str) :
  three_tokens line method uri protocol ->
  py_split line = [method; uri; protocol].
Proof.
  intros (w0 & w1 & w2 & w3 & -> & H0 & H1 & H2 & H3 & N1 & N2
          & [Nm Tm] & [Nu Tu] & [Np Tp]).
  unfold py_split.
  rewrite (split_ws_spaces w0 _ H0).
  rewrite (split_ws_run [] method _ Tm). cbn [app].
  rewrite (split_ws_close method w1 _ Nm N1 H1).
  rewrite (split_ws_run [] uri _ Tu). cbn [app].
  rewrite (split_ws_close uri w2 _ Nu N2 H2).
  rewrite (split_ws_run [] protocol _ Tp). cbn [app].
  now rewrite (split_ws_end protocol w3 Np H3).
Qed.

(** C6. When the first line of the request is three whitespace-separated
    tokens, [parse_request] returns the second one if the first is exactly
    ["GET"], and raises NotImplementedError if and only if it is not; the
    server then answers with the 405 response. *)
Theorem parse_request_three_tokens (request line method uri protocol : str) :
  is_first_line line request ->
  three_tokens line method uri protocol ->
  (method = ulit "GET" -> parse_request request = Ok uri)
  /\ (parse_request request = Raise NotImplementedError <-> method <> ulit "GET")
  /\ (method <> ulit "GET" ->
      forall fs guess_type decode_text webroot cwd,
        server_respond fs guess_type decode_text request webroot cwd
        = (Ok response_method_not_allowed, cwd)).
Proof.
  intros Hline Htok.
  assert (Hparse : parse_request request
                   = if negb (str_eqb method (ulit "GET"))
                     then Raise NotImplementedError else Ok uri).
  { unfold parse_request.
    rewrite (first_line_of line request Hline).
    now rewrite (py_split_three_tokens line method uri protocol Htok). }
  repeat split.
  - intros ->. now rewrite Hparse, str_eqb_refl.
  - intros Hr Hm. subst method. rewrite Hparse, str_eqb_refl in Hr. discriminate.
  - intros Hm. now rewrite Hparse, (str_eqb_neq _ _ Hm).
  - intros Hm fs guess_type decode_text webroot cwd. unfold server_respond.
    now rewrite Hparse, (str_eqb_neq _ _ Hm).
Qed.

Lemma parse_request_three_tokens_witness :
  let request :=
    ulit "GET /a.txt HTTP/1.1" ++ crlf ++ ulit "Host: x" ++ crlf ++ crlf in
  let line := ulit "GET /a.txt HTTP/1.1" in
  is_first_line line request
  /\ three_tokens line (ulit "GET") (ulit "/a.txt") (ulit "HTTP/1.1")
  /\ parse_request request = Ok (ulit "/a.txt").
Proof.
  intros request line.
  assert (H1 : is_first_line line request).
  { split; [reflexivity|]. right. eexists. reflexivity. }
  assert (H2 : three_tokens line (ulit "GET") (ulit "/a.txt") (ulit "HTTP/1.1")).
  { exists [], (ulit " "), (ulit " "), [].
    repeat split; try reflexivity; discriminate. }
  split; [exact H1|]. split; [exact H2|].
  exact (proj1 (parse_request_three_tokens request line
                  (ulit "GET") (ulit "/a.txt") (ulit "HTTP/1.1") H1 H2) eq_refl).
Defined.

(** C10. Two requests that have the same text before their first line
    terminator get the same outcome from [parse_request], whatever
    follows that line. *)
Theorem parse_request_first_line_only (request1 request2 line : str) :
  is_first_line line request1 ->
  is_first_line line request2 ->
  parse_request request1 = parse_request request2.
Proof.
  intros H1 H2. unfold parse_request.
  now rewrite (first_line_of line request1 H1), (first_line_of line request2 H2).
Qed.

Lemma parse_request_first_line_only_witness :
  let line := ulit "POST /a.txt HTTP/1.1" in
  let request1 := line ++ crlf ++ ulit "Host: x" ++ crlf ++ crlf in
  let request2 := line in
  is_first_line line request1
  /\ is_first_line line request2
  /\ parse_request request1 = parse_request request2.
Proof.
  intros line request1 request2.
  assert (H1 : is_first_line line request1).
  { split; [reflexivity|]. right. eexists. reflexivity. }
  assert (H2 : is_first_line line request2).
  { split; [reflexivity|]. left. reflexivity. }
  split; [exact H1|]. split; [exact H2|].
  exact (parse_request_first_line_only request1 request2 line H1 H2).
Defined.

(* ================================================================= *)
(** ** The resolver, case by case *)

Section ResolverFacts.

Variable fs : node.
Variable guess_type : str -> guess.
Variable decode_text : bytes -> option str.

Let resolve := resolve_uri fs guess_type decode_text.

(** The request reaches the file system: [webroot] names the directory at
    [W], and the relative URI is looked up from there. *)
Variables (cwd W : location) (webroot uri : str) (ws : list (str * node)).
Hypothesis webroot_at : locate fs cwd webroot = Some W.
Hypothesis webroot_dir : lookup fs W = Some (Dir ws).

Let relative_uri : str := ulit "." ++ uri.

Lemma chdir_webroot : chdir fs webroot cwd = (Ok tt, W).
Proof. unfold chdir. now rewrite webroot_at, webroot_dir. Qed.

Lemma append_encoded_spec (names : list str) (resp : list bytes) (c : location) :
  append_encoded resp names c
  = match encode_names names with
    | Some es => (Ok (resp ++ es), c)
    | None => (Raise UnicodeEncodeError, c)
    end.
Proof.
  revert resp; induction names as [|n names IH]; intros resp.
  - simpl. unfold ret. now rewrite app_nil_r.
  - simpl. unfold bind, encode.
    destruct (encode_utf8 n) as [e|]; [|reflexivity].
    unfold ret. rewrite IH.
    destruct (encode_names names) as [es|]; [|reflexivity].
    now rewrite <- app_assoc.
Qed.

Ltac run_resolver :=
  unfold resolve_uri, bind, abspath_curdir;
  rewrite chdir_webroot;
  unfold path_exists, path_isdir, path_isfile, read_text, read_bytes,
         raise, ret, chdir_back;
  cbv beta iota zeta.

Ltac use_stat H := repeat (rewrite H; cbv beta iota zeta; cbn [negb]).

Lemma resolve_uri_missing :
  stat fs W relative_uri = None ->
  resolve uri webroot cwd = (Raise NameError, cwd).
Proof.
  intros Hst. unfold resolve. run_resolver. fold relative_uri.
  use_stat Hst. reflexivity.
Qed.

Lemma resolve_uri_special :
  stat fs W relative_uri = Some Special ->
  resolve uri webroot cwd = (Raise (TypeError Line103), cwd).
Proof.
  intros Hst. unfold resolve. run_resolver. fold relative_uri.
  use_stat Hst. reflexivity.
Qed.

Lemma resolve_uri_dir (D : location) (es : list (str * node)) :
  locate fs W relative_uri = Some D ->
  lookup fs D = Some (Dir es) ->
  resolve uri webroot cwd = dir_outcome cwd D es.
Proof.
  intros Hloc Hd.
  assert (Hst : stat fs W relative_uri = Some (Dir es))
    by (unfold stat; now rewrite Hloc).
  unfold resolve, dir_outcome. run_resolver. fold relative_uri.
  use_stat Hst.
  unfold chdir. rewrite Hloc, Hd. unfold glob_star. rewrite Hd.
  rewrite append_encoded_spec. cbn [app].
  destruct (encode_names _) as [encs|]; reflexivity.
Qed.

Lemma resolve_uri_file (data : bytes) :
  stat fs W relative_uri = Some (File data) ->
  resolve uri webroot cwd
  = file_outcome guess_type decode_text cwd W (basename relative_uri) data.
Proof.
  intros Hst. unfold resolve, file_outcome. run_resolver. fold relative_uri.
  use_stat Hst.
  destruct (guess_type (basename relative_uri)) as [[t enc]|]; [|reflexivity].
  destruct (is_text_plain t) eqn:Htp.
  - use_stat Hst.
    destruct (decode_text data) as [s|]; [|reflexivity].
    unfold encode. destruct (encode_utf8 (universal_newlines s)) as [body|]; [|reflexivity].
    destruct t as [mt|]; [|discriminate]. simpl in Htp.
    destruct (str_eqb_spec mt text_plain) as [->|]; [|discriminate].
    reflexivity.
  - use_stat Hst.
    destruct t as [mt|]; [|reflexivity].
    unfold encode_first, encode.
    destruct (encode_utf8 mt); reflexivity.
Qed.

End ResolverFacts.

(* ================================================================= *)
(** ** Every way [resolve_uri] can end *)

Section ResolverOutcomes.

Variable fs : node.
Variable guess_type : str -> guess.
Variable decode_text : bytes -> option str.

Let resolve := resolve_uri fs guess_type decode_text.

Lemma resolve_uri_no_webroot (uri webroot : str) (cwd : location) :
  (forall W ws, locate fs cwd webroot = Some W -> lookup fs W <> Some (Dir ws)) ->
  resolve uri webroot cwd = (Raise OSError, cwd).
Proof.
  intros Hno. unfold resolve, resolve_uri, bind, abspath_curdir, chdir.
  destruct (locate fs cwd webroot) as [W|] eqn:HW; [|reflexivity].
  destruct (lookup fs W) as [[data|ws|]|] eqn:Hl; try reflexivity.
  now destruct (Hno W ws eq_refl).
Qed.

Lemma resolve_uri_outcomes (uri webroot : str) (cwd : location) :
  let r := resolve uri webroot cwd in
  r = (Raise OSError, cwd)
  \/ r = (Raise NameError, cwd)
  \/ r = (Raise (TypeError Line103), cwd)
  \/ (exists D es, r = dir_outcome cwd D es)
  \/ (exists W data,
         r = file_outcome guess_type decode_text cwd W
               (basename (ulit "." ++ uri)) data).
Proof.
  intros r. subst r.
  destruct (locate fs cwd webroot) as [W|] eqn:HW.
  2:{ left. apply resolve_uri_no_webroot. intros W ws HW'. congruence. }
  destruct (lookup fs W) as [[wd|ws|]|] eqn:Hl;
    try (left; apply resolve_uri_no_webroot; intros W' ws' HW'; congruence).
  destruct (stat fs W (ulit "." ++ uri)) as [[data|es|]|] eqn:Hst.
  - right; right; right; right. exists W, data.
    apply (resolve_uri_file fs guess_type decode_text cwd W webroot uri ws HW Hl data Hst).
  - right; right; right; left.
    unfold stat in Hst.
    destruct (locate fs W (ulit "." ++ uri)) as [D|] eqn:HD; [|discriminate].
    exists D, es.
    apply (resolve_uri_dir fs guess_type decode_text cwd W webroot uri ws HW Hl D es HD Hst).
  - right; right; left.
    apply (resolve_uri_special fs guess_type decode_text cwd W webroot uri ws HW Hl Hst).
  - right; left.
    apply (resolve_uri_missing fs guess_type decode_text cwd W webroot uri ws HW Hl Hst).
Qed.

End ResolverOutcomes.

(* ================================================================= *)
(** ** Files *)

(** C5, as stated, fails.  [bad.txt] is a regular file with the type
    text/plain whose byte does not decode: [resolve_uri] returns nothing
    and leaves by UnicodeDecodeError.  [dos.txt] decodes, and encoding its
    text again would give back its bytes, but the content returned has a
    line feed where the file has a carriage return and a line feed. *)
Lemma resolve_uri_known_file_counterexample :
  (stat sample_fs sample_webroot_loc (ulit "./bad.txt") = Some (File [xff])
   /\ sample_guess_type (basename (ulit "./bad.txt")) = Some (Some text_plain, None)
   /\ sample_resolve_uri (ulit "/bad.txt")
      = (Raise UnicodeDecodeError, sample_webroot_loc))
  /\ (stat dos_fs sample_webroot_loc (ulit "./dos.txt") = Some (File dos_text)
      /\ sample_guess_type (basename (ulit "./dos.txt")) = Some (Some text_plain, None)
      /\ decode_utf8 dos_text = Some (ulit "a" ++ crlf ++ ulit "b")
      /\ encode_utf8 (ulit "a" ++ crlf ++ ulit "b") = Some dos_text
      /\ resolve_uri dos_fs sample_guess_type decode_utf8 (ulit "/dos.txt")
           sample_webroot_path sample_cwd
         = (Ok (blit "a" ++ [x0a] ++ blit "b", blit "text/plain"), sample_cwd)
      /\ blit "a" ++ [x0a] ++ blit "b" <> dos_text).
Proof. repeat split; try reflexivity. discriminate. Qed.

(** C5, amended. A regular file whose name has a MIME type comes back
    with that type, encoded: as its exact bytes when the type is not
    text/plain; and, when it is text/plain and the file decodes in the
    codec of text-mode [open], as the UTF-8 encoding of the decoded text
    with its line endings turned into line feeds.  The working directory
    is back where it was. *)
Theorem resolve_uri_known_file
  (fs : node) (guess_type : str -> guess) (decode_text : bytes -> option str)
  (cwd W : location) (webroot uri : str) (ws : list (str * node))
  (data mtb : bytes) (mt : str) (enc : option str) :
  locate fs cwd webroot = Some W ->
  lookup fs W = Some (Dir ws) ->
  stat fs W (ulit "." ++ uri) = Some (File data) ->
  guess_type (basename (ulit "." ++ uri)) = Some (Some mt, enc) ->
  encode_utf8 mt = Some mtb ->
  (mt <> text_plain ->
   resolve_uri fs guess_type decode_text uri webroot cwd = (Ok (data, mtb), cwd))
  /\ (mt = text_plain ->
      forall text body,
        decode_text data = Some text ->
        encode_utf8 (universal_newlines text) = Some body ->
        resolve_uri fs guess_type decode_text uri webroot cwd
        = (Ok (body, mtb), cwd)).
Proof.
  intros HW Hl Hst Hg Hmt.
  pose proof (resolve_uri_file fs guess_type decode_text cwd W webroot uri ws
                HW Hl data Hst) as Hr.
  unfold file_outcome in Hr. rewrite Hg in Hr. cbn [is_text_plain] in Hr. split.
  - intros Hne. rewrite Hr, (str_eqb_neq _ _ Hne), Hmt. reflexivity.
  - intros -> text body Hdec Henc.
    rewrite Hr, str_eqb_refl, Hdec, Henc.
    assert (Hb : mtb = blit "text/plain")
      by (vm_compute in Hmt; injection Hmt as <-; reflexivity).
    now rewrite Hb.
Qed.

Lemma resolve_uri_known_file_witness :
  sample_resolve_uri (ulit "/logo.png") = (Ok (sample_png, blit "image/png"), sample_cwd)
  /\ sample_resolve_uri (ulit "/a.txt") = (Ok (blit "hello", blit "text/plain"), sample_cwd).
Proof.
  split.
  - refine (proj1 (resolve_uri_known_file sample_fs sample_guess_type decode_utf8
                     sample_cwd sample_webroot_loc sample_webroot_path
                     (ulit "/logo.png") _ sample_png (blit "image/png")
                     (ulit "image/png") None eq_refl eq_refl eq_refl eq_refl eq_refl) _).
    discriminate.
  - refine (proj2 (resolve_uri_known_file sample_fs sample_guess_type decode_utf8
                     sample_cwd sample_webroot_loc sample_webroot_path
                     (ulit "/a.txt") _ (blit "hello") (blit "text/plain")
                     text_plain None eq_refl eq_refl eq_refl eq_refl eq_refl)
                  eq_refl (ulit "hello") (blit "hello") eq_refl eq_refl).
Defined.

(** C1. A regular file whose name has no MIME type does not make
    [resolve_uri] raise TypeError: the guess is the pair [(None, enc)], the
    file is read as bytes, and [mimetype[0].encode] then fails with
    AttributeError, which the handler of [server] does not catch, so no
    415 response is sent. *)
Theorem resolve_uri_unknown_type
  (fs : node) (guess_type : str -> guess) (decode_text : bytes -> option str)
  (cwd W : location) (webroot uri request : str) (ws : list (str * node))
  (data : bytes) (enc : option str) :
  locate fs cwd webroot = Some W ->
  lookup fs W = Some (Dir ws) ->
  stat fs W (ulit "." ++ uri) = Some (File data) ->
  guess_type (basename (ulit "." ++ uri)) = Some (None, enc) ->
  parse_request request = Ok uri ->
  resolve_uri fs guess_type decode_text uri webroot cwd = (Raise AttributeError, cwd)
  /\ server_respond fs guess_type decode_text request webroot cwd
     = (Raise AttributeError, cwd).
Proof.
  intros HW Hl Hst Hg Hp.
  assert (Hr : resolve_uri fs guess_type decode_text uri webroot cwd
               = (Raise AttributeError, cwd)).
  { rewrite (resolve_uri_file fs guess_type decode_text cwd W webroot uri ws
               HW Hl data Hst).
    unfold file_outcome. now rewrite Hg. }
  split; [exact Hr|].
  unfold server_respond. now rewrite Hp, Hr.
Qed.

Lemma resolve_uri_unknown_type_witness :
  sample_resolve_uri (ulit "/blob.qqq") = (Raise AttributeError, sample_cwd)
  /\ sample_server_respond (ulit "GET /blob.qqq HTTP/1.1" ++ crlf ++ crlf)
     = (Raise AttributeError, sample_cwd).
Proof.
  exact (resolve_uri_unknown_type sample_fs sample_guess_type decode_utf8
           sample_cwd sample_webroot_loc sample_webroot_path (ulit "/blob.qqq")
           (ulit "GET /blob.qqq HTTP/1.1" ++ crlf ++ crlf) _ [x00; x01] None
           eq_refl eq_refl eq_refl eq_refl eq_refl).
Defined.

(** C9. When the MIME guess is always a pair, the TypeError of line 89 is
    never raised; and for a regular file whose guess is [(None, enc)] the
    run goes on to the last line, where encoding the [None] type fails
    with AttributeError after the working directory has been restored. *)
Theorem line89_unreachable
  (fs : node) (guess_type : str -> guess) (decode_text : bytes -> option str) :
  (forall filename, guess_type filename <> None) ->
  (forall uri webroot cwd,
      fst (resolve_uri fs guess_type decode_text uri webroot cwd)
      <> Raise (TypeError Line89))
  /\ (forall cwd W webroot uri ws data enc,
         locate fs cwd webroot = Some W ->
         lookup fs W = Some (Dir ws) ->
         stat fs W (ulit "." ++ uri) = Some (File data) ->
         guess_type (basename (ulit "." ++ uri)) = Some (None, enc) ->
         resolve_uri fs guess_type decode_text uri webroot cwd
         = (Raise AttributeError, cwd)).
Proof.
  intros Hpair. split.
  - intros uri webroot cwd.
    destruct (resolve_uri_outcomes fs guess_type decode_text uri webroot cwd)
      as [H | [H | [H | [(D & es & H) | (W & data & H)]]]];
      rewrite H; try discriminate.
    + unfold dir_outcome. destruct (encode_names _); discriminate.
    + unfold file_outcome.
      destruct (guess_type (basename (ulit "." ++ uri))) as [[t enc]|] eqn:Hg.
      * destruct (is_text_plain t).
        -- destruct (decode_text data) as [s|]; [|discriminate].
           destruct (encode_utf8 (universal_newlines s)); discriminate.
        -- destruct t as [mt|]; [|discriminate].
           destruct (encode_utf8 mt); discriminate.
      * now destruct (Hpair _ Hg).
  - intros cwd W webroot uri ws data enc HW Hl Hst Hg.
    rewrite (resolve_uri_file fs guess_type decode_text cwd W webroot uri ws
               HW Hl data Hst).
    unfold file_outcome. now rewrite Hg.
Qed.

Lemma line89_unreachable_witness :
  (forall filename, sample_guess_type filename <> None)
  /\ fst (sample_resolve_uri (ulit "/blob.qqq")) <> Raise (TypeError Line89)
  /\ sample_resolve_uri (ulit "/blob.qqq") = (Raise AttributeError, sample_cwd).
Proof.
  assert (Hpair : forall filename, sample_guess_type filename <> None).
  { intros filename. unfold sample_guess_type.
    destruct (extension filename); discriminate. }
  split; [exact Hpair|].
  destruct (line89_unreachable sample_fs sample_guess_type decode_utf8 Hpair)
    as [Hnever Hlast].
  split.
  - exact (Hnever (ulit "/blob.qqq") sample_webroot_path sample_cwd).
  - exact (Hlast sample_cwd sample_webroot_loc sample_webroot_path
             (ulit "/blob.qqq") _ [x00; x01] None
             eq_refl eq_refl eq_refl eq_refl).
Defined.

(* ================================================================= *)
(** ** Directories *)

(** C4, as stated, fails: the directory [/images] of the sample tree has
    the entry [.hidden], and the listing has no such line. *)
Lemma directory_listing_counterexample :
  exists es body,
    stat sample_fs sample_webroot_loc (ulit "./images") = Some (Dir es)
    /\ sample_resolve_uri (ulit "/images") = (Ok (body, blit "text/plain"), sample_cwd)
    /\ body_lines body = [blit "pic.png"; blit "notes.txt"]
    /\ In (ulit ".hidden") (map fst es)
    /\ ~ In (blit ".hidden") (body_lines body).
Proof.
  exists [ (ulit "pic.png", File sample_png);
           (ulit ".hidden", File (blit "x"));
           (ulit "notes.txt", File (blit "n")) ].
  exists (blit "pic.png" ++ CRLF ++ blit "notes.txt").
  split; [reflexivity|]. split; [reflexivity|]. split; [reflexivity|].
  split.
  - right. left. reflexivity.
  - intros [H | [H | []]]; discriminate.
Qed.

(** C4, amended. For a directory whose visible names can be encoded,
    [resolve_uri] returns the encodings of the names of its immediate
    entries that do not start with a dot, joined by the line terminator,
    with the mimetype text/plain; the working directory is back where it
    was. *)
Theorem directory_listing
  (fs : node) (guess_type : str -> guess) (decode_text : bytes -> option str)
  (cwd W D : location) (webroot uri : str) (ws es : list (str * node))
  (listed : list str) (encs : list bytes) :
  locate fs cwd webroot = Some W ->
  lookup fs W = Some (Dir ws) ->
  locate fs W (ulit "." ++ uri) = Some D ->
  lookup fs D = Some (Dir es) ->
  listed = filter (fun n => negb (hidden n)) (map fst es) ->
  encode_names listed = Some encs ->
  resolve_uri fs guess_type decode_text uri webroot cwd
  = (Ok (join CRLF encs, blit "text/plain"), cwd)
  /\ Forall2 (fun name e => encode_utf8 name = Some e) listed encs
  /\ (forall name,
         In name listed <-> In name (map fst es) /\ hidden name = false).
Proof.
  intros HW Hl HD Hd -> Henc. split; [|split].
  - rewrite (resolve_uri_dir fs guess_type decode_text cwd W webroot uri ws
               HW Hl D es HD Hd).
    unfold dir_outcome. now rewrite Henc.
  - clear -Henc. revert encs Henc.
    induction (filter (fun n => negb (hidden n)) (map fst es)) as [|n l IH];
      intros encs Henc; simpl in Henc.
    + injection Henc as <-. constructor.
    + destruct (encode_utf8 n) as [e|] eqn:He; [|discriminate].
      destruct (encode_names l) as [rest|]; [|discriminate].
      injection Henc as <-. constructor; [exact He | now apply IH].
  - intros name. rewrite filter_In, negb_true_iff. reflexivity.
Qed.

Lemma directory_listing_witness :
  sample_resolve_uri (ulit "/images")
  = (Ok (join CRLF [blit "pic.png"; blit "notes.txt"], blit "text/plain"), sample_cwd).
Proof.
  exact (proj1 (directory_listing sample_fs sample_guess_type decode_utf8
                  sample_cwd sample_webroot_loc
                  [ulit "srv"; ulit "webroot"; ulit "images"]
                  sample_webroot_path (ulit "/images") _ _
                  [ulit "pic.png"; ulit "notes.txt"]
                  [blit "pic.png"; blit "notes.txt"]
                  eq_refl eq_refl eq_refl eq_refl eq_refl eq_refl)).
Defined.

(* ================================================================= *)
(** ** The webroot as a jail *)

(** A URI with no [".."] component is looked up inside the webroot. *)
Lemma walk_without_dotdot (fs : node) (W : location) (comps : list str) :
  forall suffix loc,
    ~ In (ulit "..") comps ->
    walk fs (W ++ suffix) comps = Some loc ->
    exists suffix', loc = W ++ suffix'.
Proof.
  induction comps as [|c comps IH]; intros suffix loc Hno Hw; simpl in Hw.
  - injection Hw as <-. now exists suffix.
  - destruct (enter fs (W ++ suffix) c) as [cur|] eqn:He; [|discriminate].
    assert (Hcur : exists s', cur = W ++ s').
    { unfold enter in He.
      destruct (lookup fs (W ++ suffix)) as [[d|es|]|]; try discriminate.
      destruct (str_eqb c [] || str_eqb c (ulit ".")).
      - injection He as <-. now exists suffix.
      - destruct (str_eqb_spec c (ulit "..")) as [->|_].
        + destruct Hno. now left.
        + destruct (assoc c es); [|discriminate].
          injection He as <-. exists (suffix ++ [c]). now rewrite app_assoc. }
    destruct Hcur as [s' ->].
    apply (IH s' loc); [|exact Hw].
    intros Hin. apply Hno. now right.
Qed.

Lemma locate_without_dotdot (fs : node) (W loc : location) (uri : str) :
  ~ In (ulit "..") (split_on N.eqb slash (ulit "." ++ uri)) ->
  locate fs W (ulit "." ++ uri) = Some loc ->
  exists suffix, loc = W ++ suffix.
Proof.
  intros Hno Hloc. unfold locate in Hloc.
  change (ulit "." ++ uri) with (dot :: uri) in *.
  cbn [N.eqb dot slash Pos.eqb] in Hloc.
  apply (walk_without_dotdot fs W _ [] loc Hno).
  now rewrite app_nil_r.
Qed.

(** C2. The dot prefix does not keep a URI with a [".."] component inside
    the webroot: [/../secret.txt] is looked up at [/srv/secret.txt],
    which is not under [/srv/webroot], and the content of that file is
    returned. *)
Theorem dotdot_escapes_webroot :
  locate sample_fs sample_webroot_loc (ulit "." ++ ulit "/../secret.txt")
  = Some [ulit "srv"; ulit "secret.txt"]
  /\ is_prefix_of sample_webroot_loc [ulit "srv"; ulit "secret.txt"] = false
  /\ sample_resolve_uri (ulit "/../secret.txt")
     = (Ok (blit "top secret", blit "text/plain"), sample_cwd)
  /\ sample_server_respond (ulit "GET /../secret.txt HTTP/1.1" ++ crlf ++ crlf)
     = (Ok (response_ok (blit "top secret") (blit "text/plain")), sample_cwd).
Proof. repeat split; reflexivity. Qed.

(* ================================================================= *)
(** ** The working directory *)

(** On every way out other than a codec error, the working directory is
    the one [resolve_uri] was entered with. *)
Lemma resolve_uri_restores_cwd
  (fs : node) (guess_type : str -> guess) (decode_text : bytes -> option str)
  (uri webroot : str) (cwd : location) :
  (forall filename, guess_type filename <> None) ->
  let r := resolve_uri fs guess_type decode_text uri webroot cwd in
  fst r <> Raise UnicodeDecodeError ->
  fst r <> Raise UnicodeEncodeError ->
  snd r = cwd.
Proof.
  intros Hpair r Hd He. subst r.
  destruct (resolve_uri_outcomes fs guess_type decode_text uri webroot cwd)
    as [H | [H | [H | [(D & es & H) | (W & data & H)]]]];
    rewrite H in *; try reflexivity.
  - unfold dir_outcome in *. destruct (encode_names _); [reflexivity|].
    now destruct He.
  - unfold file_outcome in *.
    destruct (guess_type (basename (ulit "." ++ uri))) as [[t enc]|] eqn:Hg.
    + destruct (is_text_plain t).
      * destruct (decode_text data) as [s|]; [|now destruct Hd].
        destruct (encode_utf8 (universal_newlines s)); [reflexivity|now destruct He].
      * destruct t as [mt|]; [|reflexivity].
        destruct (encode_utf8 mt); reflexivity.
    + now destruct (Hpair _ Hg).
Qed.

(** C8. A text file that does not decode makes [resolve_uri] leave by a
    UnicodeDecodeError raised while reading, before line 105: the process
    stays in the webroot instead of the directory it started in. *)
Theorem undecodable_text_leaves_cwd_in_webroot :
  sample_guess_type (ulit "bad.txt") = Some (Some text_plain, None)
  /\ stat sample_fs sample_webroot_loc (ulit "./bad.txt") = Some (File [xff])
  /\ decode_utf8 [xff] = None
  /\ sample_resolve_uri (ulit "/bad.txt") = (Raise UnicodeDecodeError, sample_webroot_loc)
  /\ sample_webroot_loc <> sample_cwd.
Proof. repeat split; try reflexivity. discriminate. Qed.

(* ================================================================= *)
(** ** The lines of a listing *)

Lemma not_lf_after_cr (d : byte) (e : bytes) :
  starts_with Byte.eqb [x0d; x0a] (x0d :: d :: e) = false ->
  Byte.eqb d x0a = false.
Proof.
  intros H. destruct (byte_eqb_spec d x0a) as [->|Hne]; [|reflexivity].
  discriminate H.
Qed.

Lemma split_lines_line (e cur s : bytes) :
  occurs Byte.eqb CRLF e = false ->
  split_lines cur (e ++ CRLF ++ s) = (cur ++ e) :: split_lines [] s.
Proof.
  revert cur; induction e as [|c e IH]; intros cur Hno.
  - simpl. now rewrite app_nil_r.
  - apply (occurs_pair_cons Byte.eqb x0d x0a) in Hno. destruct Hno as [Hhd Htl].
    replace (cur ++ c :: e) with ((cur ++ [c]) ++ e) by (now rewrite <- app_assoc).
    rewrite <- (IH (cur ++ [c]) Htl).
    change ((c :: e) ++ CRLF ++ s) with (c :: (e ++ CRLF ++ s)).
    cbn [split_lines].
    destruct (byte_eqb_spec c x0d) as [->|Hc]; [|reflexivity].
    destruct e as [|d e]; [reflexivity|].
    cbn [app]. now rewrite (not_lf_after_cr d e Hhd).
Qed.

Lemma split_lines_last (e cur : bytes) :
  occurs Byte.eqb CRLF e = false ->
  split_lines cur e = [cur ++ e].
Proof.
  revert cur; induction e as [|c e IH]; intros cur Hno.
  - simpl. now rewrite app_nil_r.
  - apply (occurs_pair_cons Byte.eqb x0d x0a) in Hno. destruct Hno as [Hhd Htl].
    replace (cur ++ c :: e) with ((cur ++ [c]) ++ e) by (now rewrite <- app_assoc).
    rewrite <- (IH (cur ++ [c]) Htl).
    cbn [split_lines].
    destruct (byte_eqb_spec c x0d) as [->|Hc]; [|reflexivity].
    destruct e as [|d e]; [reflexivity|].
    now rewrite (not_lf_after_cr d e Hhd).
Qed.

(** The lines of a listing of at least one name are the encoded names,
    as long as no name holds a line terminator. *)
Lemma body_lines_join (encs : list bytes) :
  encs <> [] ->
  Forall (fun e => occurs Byte.eqb CRLF e = false) encs ->
  body_lines (join CRLF encs) = encs.
Proof.
  intros Hne Hall. unfold body_lines. revert Hne.
  induction Hall as [|e rest He Hrest IH]; intros Hne; [now destruct Hne|].
  destruct rest as [|e' rest].
  - simpl. now apply split_lines_last.
  - rewrite join_cons, (split_lines_line e [] _ He). cbn [app].
    f_equal. apply IH. discriminate.
Qed.

(* ================================================================= *)
(** ** The scenarios of the specification, on the sample tree *)

Example scenario_text_file :
  sample_server_respond (ulit "GET /a.txt HTTP/1.1" ++ crlf ++ crlf)
  = (Ok (blit "HTTP/1.1 200 OK" ++ CRLF ++ blit "Content-Type: text/plain"
         ++ CRLF ++ CRLF ++ blit "hello"), sample_cwd).
Proof. reflexivity. Qed.

Example scenario_empty_directory :
  sample_server_respond (ulit "GET /sub HTTP/1.1" ++ crlf ++ crlf)
  = (Ok (response_ok [] (blit "text/plain")), sample_cwd).
Proof. reflexivity. Qed.

Example scenario_missing :
  sample_server_respond (ulit "GET /missing.txt HTTP/1.1" ++ crlf ++ crlf)
  = (Ok response_not_found, sample_cwd).
Proof. reflexivity. Qed.

Example scenario_post :
  sample_server_respond (ulit "POST /a.txt HTTP/1.1" ++ crlf ++ crlf)
  = (Ok response_method_not_allowed, sample_cwd).
Proof. reflexivity. Qed.

Example scenario_fifo :
  sample_server_respond (ulit "GET /pipe HTTP/1.1" ++ crlf ++ crlf)
  = (Ok response_unsupported_media_type, sample_cwd).
Proof. reflexivity. Qed.

Example scenario_malformed_request_line :
  sample_server_respond (ulit "GET /a.txt" ++ crlf ++ crlf)
  = (Raise ValueError, sample_cwd).
Proof. reflexivity. Qed.

Example utf8_encode_sample :
  encode_utf8 [0x48; 0xE9; 0x20AC; 0x1F600]
  = Some [x48; xc3; xa9; xe2; x82; xac; xf0; x9f; x98; x80].
Proof. reflexivity. Qed.

Example utf8_decode_sample :
  decode_utf8 [x48; xc3; xa9; xe2; x82; xac; xf0; x9f; x98; x80]
  = Some [0x48; 0xE9; 0x20AC; 0x1F600].
Proof. reflexivity. Qed.

Example utf8_encode_surrogate : encode_utf8 [0xDC80] = None.
Proof. reflexivity. Qed.

Example utf8_decode_overlong : decode_utf8 [xc0; x80] = None.
Proof. reflexivity. Qed.

Example universal_newlines_sample :
  universal_newlines (ulit "a" ++ crlf ++ ulit "b" ++ [13] ++ ulit "c" ++ [10])
  = ulit "a" ++ [10] ++ ulit "b" ++ [10] ++ ulit "c" ++ [10].
Proof. reflexivity. Qed.

(* ================================================================= *)
(** * Further properties *)

(** ** The tokens of [str.split()] *)

Lemma split_ws_tokens (s acc : str) :
  forallb (fun c => negb (isspace c)) acc = true ->
  Forall token (split_ws acc s).
Proof.
  revert acc; induction s as [|c s IH]; intros acc Hacc; simpl.
  - destruct acc as [|a acc]; constructor; [|constructor].
    split; [discriminate | exact Hacc].
  - destruct (isspace c) eqn:Hc.
    + destruct acc as [|a acc]; [now apply IH|].
      constructor; [split; [discriminate | exact Hacc] | now apply IH].
    + apply IH. rewrite forallb_app, Hacc. simpl. now rewrite Hc.
Qed.

Lemma split_ws_concat (s acc : str) :
  List.concat (split_ws acc s) = acc ++ filter (fun c => negb (isspace c)) s.
Proof.
  revert acc; induction s as [|c s IH]; intros acc; simpl.
  - destruct acc; simpl; now rewrite ?app_nil_r.
  - destruct (isspace c) eqn:Hc; simpl.
    + destruct acc as [|a acc]; simpl; now rewrite IH.
    + now rewrite IH, <- app_assoc.
Qed.

(** X1. Whatever the text, the pieces [split()] returns are tokens (not
    empty, no whitespace inside), and put together they are the text with
    its whitespace taken out: nothing else is dropped or reordered. *)
Theorem py_split_tokens (s : str) :
  Forall token (py_split s)
  /\ List.concat (py_split s) = filter (fun c => negb (isspace c)) s.
Proof.
  split.
  - now apply split_ws_tokens.
  - apply (split_ws_concat s []).
Qed.

Lemma py_split_token_line (ts : list str) (rest w0 : str) :
  all_space w0 -> token_line ts rest -> py_split (w0 ++ rest) = ts.
Proof.
  intros H0 Hl. unfold py_split. rewrite (split_ws_spaces w0 rest H0).
  clear w0 H0.
  induction Hl as [| t w [Nt Tt] Hw | t w ts rest [Nt Tt] Hw Nw Nts Hl IH].
  - reflexivity.
  - rewrite (split_ws_run [] t w Tt). cbn [app].
    now apply split_ws_end.
  - rewrite (split_ws_run [] t _ Tt). cbn [app].
    rewrite (split_ws_close t w rest Nt Nw Hw). now rewrite IH.
Qed.

(** X2. A request whose first line does not hold exactly three tokens
    (none at all, as for an empty request, or one, two, four, ...) makes
    [parse_request] raise ValueError, which the handler of [server] does
    not catch: no response is computed and the file system is not
    consulted. *)
Theorem parse_request_wrong_token_count
  (request line w0 rest : str) (ts : list str) :
  is_first_line line request ->
  line = w0 ++ rest ->
  all_space w0 ->
  token_line ts rest ->
  List.length ts <> 3%nat ->
  parse_request request = Raise ValueError
  /\ forall fs guess_type decode_text webroot cwd,
       server_respond fs guess_type decode_text request webroot cwd
       = (Raise ValueError, cwd).
Proof.
  intros Hline -> H0 Hl Hn.
  assert (Hp : parse_request request = Raise ValueError).
  { unfold parse_request.
    rewrite (first_line_of _ request Hline), (py_split_token_line ts rest w0 H0 Hl).
    destruct ts as [|a [|b0 [|c [|d ts]]]]; try reflexivity.
    now destruct Hn. }
  split; [exact Hp|].
  intros fs guess_type decode_text webroot cwd.
  unfold server_respond. now rewrite Hp.
Qed.

Lemma parse_request_wrong_token_count_witness :
  parse_request [] = Raise ValueError
  /\ parse_request (ulit "GET /a.txt" ++ crlf ++ crlf) = Raise ValueError.
Proof.
  split.
  - refine (proj1 (parse_request_wrong_token_count [] [] [] [] [] _ eq_refl eq_refl
                     token_line_end _)).
    + split; [reflexivity | now left].
    + discriminate.
  - refine (proj1 (parse_request_wrong_token_count
                     (ulit "GET /a.txt" ++ crlf ++ crlf) (ulit "GET /a.txt") []
                     (ulit "GET /a.txt") [ulit "GET"; ulit "/a.txt"]
                     _ eq_refl eq_refl _ _)).
    + split; [reflexivity|]. right. eexists. reflexivity.
    + apply (token_line_more (ulit "GET") (ulit " ") [ulit "/a.txt"] (ulit "/a.txt")).
      * split; [discriminate | reflexivity].
      * reflexivity.
      * discriminate.
      * discriminate.
      * apply (token_line_last (ulit "/a.txt") []).
        -- split; [discriminate | reflexivity].
        -- reflexivity.
    + discriminate.
Defined.

(** X3. When [parse_request] returns a URI, the first line of the request
    was exactly [GET], that URI and one more token; the URI is not empty
    and holds no whitespace. *)
Theorem parse_request_ok_inv (request uri : str) :
  parse_request request = Ok uri ->
  token uri
  /\ exists protocol,
       py_split (first_line request) = [ulit "GET"; uri; protocol].
Proof.
  unfold parse_request. intros H.
  pose proof (split_ws_tokens (first_line request) [] eq_refl) as Htok.
  fold (py_split (first_line request)) in Htok.
  destruct (py_split (first_line request))
    as [|m [|u0 [|p [|x l]]]]; try discriminate.
  destruct (str_eqb_spec m (ulit "GET")) as [->|Hm]; [|discriminate].
  simpl in H. injection H as <-.
  split.
  - inversion Htok as [|? ? _ Hrest]. inversion Hrest as [|? ? Hu _]. exact Hu.
  - now exists p.
Qed.

Lemma parse_request_ok_inv_witness :
  token (ulit "/a.txt").
Proof.
  exact (proj1 (parse_request_ok_inv (ulit "GET /a.txt HTTP/1.1" ++ crlf ++ crlf)
                  (ulit "/a.txt") eq_refl)).
Defined.

(** ** The first cut, in general *)

Section FirstCut.

Context {A : Type}.
Variable eqb : A -> A -> bool.
Hypothesis eqb_spec : forall x y, reflect (x = y) (eqb x y).
Variables x y : A.

Lemma starts_with_pair_inv (s : list A) :
  starts_with eqb [x; y] s = true -> exists rest, s = x :: y :: rest.
Proof.
  destruct s as [|c [|d s]]; simpl; try discriminate.
  - now rewrite andb_false_r.
  - destruct (eqb_spec x c) as [<-|]; [|discriminate].
    destruct (eqb_spec y d) as [<-|]; [|discriminate].
    intros _. now exists s.
Qed.

Lemma starts_with_pair_prefix (c : A) (a tail : list A) :
  starts_with eqb [x; y] (c :: a ++ x :: y :: tail) = false ->
  starts_with eqb [x; y] (c :: a) = false.
Proof.
  simpl. destruct (eqb x c); [|reflexivity]. simpl.
  destruct a as [|d a]; [reflexivity|]. simpl.
  destruct (eqb y d); [discriminate|reflexivity].
Qed.

Lemma partition_at_pair_some (s a rest : list A) :
  partition_at eqb [x; y] s = Some (a, rest) ->
  s = a ++ x :: y :: rest /\ occurs eqb [x; y] a = false.
Proof.
  revert a rest; induction s as [|c s IH]; intros a rest H; [discriminate|].
  rewrite partition_at_cons in H.
  destruct (starts_with eqb [x; y] (c :: s)) eqn:Hsw.
  - destruct (starts_with_pair_inv _ Hsw) as [r Hr].
    injection Hr as -> ->. simpl in H. injection H as <- <-.
    split; reflexivity.
  - destruct (partition_at eqb [x; y] s) as [[a' b']|] eqn:Hp; [|discriminate].
    injection H as <- <-.
    destruct (IH a' b' eq_refl) as [-> Hno]. split; [reflexivity|].
    cbn [occurs]. rewrite Hno, orb_false_r.
    exact (starts_with_pair_prefix c a' b' Hsw).
Qed.

Lemma partition_at_pair_none (s : list A) :
  partition_at eqb [x; y] s = None -> occurs eqb [x; y] s = false.
Proof.
  induction s as [|c s IH]; intros H; [reflexivity|].
  rewrite partition_at_cons in H.
  destruct (starts_with eqb [x; y] (c :: s)) eqn:Hsw; [discriminate|].
  destruct (partition_at eqb [x; y] s) as [[a' b']|]; [discriminate|].
  cbn [occurs]. now rewrite Hsw, (IH eq_refl).
Qed.

End FirstCut.

(** X4. For every request, what [parse_request] takes as the first line
    is the text before the first line terminator, or the whole request
    when it has none: it holds no line terminator itself. *)
Theorem first_line_is_first_line (request : str) :
  is_first_line (first_line request) request.
Proof.
  unfold is_first_line, first_line, split1, crlf.
  destruct (partition_at N.eqb [13; 10] request) as [[a rest]|] eqn:Hp.
  - destruct (partition_at_pair_some N.eqb N.eqb_spec 13 10 request a rest Hp)
      as [-> Hno].
    cbn [nth]. split; [exact Hno|]. right. now exists rest.
  - cbn [nth]. split; [|now left].
    exact (partition_at_pair_none N.eqb 13 10 request Hp).
Qed.

(* ================================================================= *)
(** ** Responses *)

Lemma status_line_response_ok (body mimetype : bytes) :
  status_line (response_ok body mimetype) = blit "HTTP/1.1 200 OK".
Proof.
  unfold status_line, split1. rewrite response_ok_layout.
  unfold CRLF at 1 2. cbn [app].
  now rewrite (partition_at_first_pair Byte.eqb byte_eqb_spec x0d x0a
                 cr_neq_lf_byte (blit "HTTP/1.1 200 OK") _ eq_refl).
Qed.

(** X5. Two calls of [response_ok] with mimetypes free of line
    terminators give the same bytes only for the same body and the same
    mimetype. *)
Theorem response_ok_injective (body1 mimetype1 body2 mimetype2 : bytes) :
  occurs Byte.eqb CRLF mimetype1 = false ->
  occurs Byte.eqb CRLF mimetype2 = false ->
  response_ok body1 mimetype1 = response_ok body2 mimetype2 ->
  body1 = body2 /\ mimetype1 = mimetype2.
Proof.
  intros H1 H2 Heq.
  pose proof (response_ok_cut body1 mimetype1 H1) as C1.
  rewrite Heq, (response_ok_cut body2 mimetype2 H2) in C1.
  injection C1 as Hm Hb. split; now symmetry.
Qed.

Lemma response_ok_injective_witness :
  blit "hello" = blit "hello" /\ blit "text/plain" = blit "text/plain".
Proof.
  exact (response_ok_injective (blit "hello") (blit "text/plain")
           (blit "hello") (blit "text/plain") eq_refl eq_refl eq_refl).
Defined.

(* ================================================================= *)
(** ** What the dispatch sends *)

Lemma resolve_uri_ok_or_caught
  (fs : node) (guess_type : str -> guess) (decode_text : bytes -> option str)
  (uri webroot : str) (cwd : location) :
  (forall filename, guess_type filename <> None) ->
  forall r cwd',
    resolve_uri fs guess_type decode_text uri webroot cwd = (r, cwd') ->
    match r with
    | Ok _ | Raise NameError | Raise (TypeError _) => cwd' = cwd
    | Raise _ => True
    end.
Proof.
  intros Hpair r cwd' Hr.
  destruct (resolve_uri_outcomes fs guess_type decode_text uri webroot cwd)
    as [H | [H | [H | [(D & es & H) | (W & data & H)]]]];
    rewrite H in Hr.
  - now injection Hr as <- <-.
  - now injection Hr as <- <-.
  - now injection Hr as <- <-.
  - unfold dir_outcome in Hr.
    destruct (encode_names _); now injection Hr as <- <-.
  - unfold file_outcome in Hr.
    destruct (guess_type (basename (ulit "." ++ uri))) as [[t enc]|] eqn:Hg;
      [|now destruct (Hpair _ Hg)].
    destruct (is_text_plain t).
    + destruct (decode_text data) as [s|]; [|now injection Hr as <- <-].
      destruct (encode_utf8 (universal_newlines s)); now injection Hr as <- <-.
    + destruct t as [mt|]; [|now injection Hr as <- <-].
      destruct (encode_utf8 mt); now injection Hr as <- <-.
Qed.

Lemma server_respond_sends
  (fs : node) (guess_type : str -> guess) (decode_text : bytes -> option str)
  (request webroot : str) (cwd cwd' : location) (resp : bytes) :
  (forall filename, guess_type filename <> None) ->
  server_respond fs guess_type decode_text request webroot cwd = (Ok resp, cwd') ->
  cwd' = cwd
  /\ (resp = response_method_not_allowed
      \/ resp = response_not_found
      \/ resp = response_unsupported_media_type
      \/ exists content mime_type, resp = response_ok content mime_type).
Proof.
  intros Hpair. unfold server_respond.
  destruct (parse_request request) as [uri|e].
  - destruct (resolve_uri fs guess_type decode_text uri webroot cwd)
      as [r c] eqn:Hr.
    pose proof (resolve_uri_ok_or_caught fs guess_type decode_text uri webroot
                  cwd Hpair r c Hr) as Hc.
    destruct r as [[content mime_type]|e].
    + intros H. injection H as <- <-. split; [exact Hc|].
      right; right; right. now exists content, mime_type.
    + destruct e; try discriminate; intros H; injection H as <- <-;
        (split; [exact Hc|]); auto.
  - destruct e; try discriminate. intros H. injection H as <- <-.
    split; [reflexivity|]. now left.
Qed.

(** X6. Whenever the dispatch of [server] produces a response, its status
    line is one of the four lines for 200, 404, 405 and 415, and the
    working directory is the one the request was received in (the MIME
    guess being always a pair). *)
Theorem server_respond_status_and_cwd
  (fs : node) (guess_type : str -> guess) (decode_text : bytes -> option str)
  (request webroot : str) (cwd cwd' : location) (resp : bytes) :
  (forall filename, guess_type filename <> None) ->
  server_respond fs guess_type decode_text request webroot cwd = (Ok resp, cwd') ->
  In (status_line resp) status_lines /\ cwd' = cwd.
Proof.
  intros Hpair H.
  destruct (server_respond_sends fs guess_type decode_text request webroot
              cwd cwd' resp Hpair H)
    as [Hc [-> | [-> | [-> | (content & mime_type & ->)]]]];
    (split; [|exact Hc]).
  - right; right; left. reflexivity.
  - right; left. reflexivity.
  - right; right; right; left. reflexivity.
  - left. symmetry. apply status_line_response_ok.
Qed.

Lemma server_respond_status_and_cwd_witness :
  In (status_line (response_ok (blit "hello") (blit "text/plain"))) status_lines
  /\ sample_cwd = sample_cwd.
Proof.
  apply (server_respond_status_and_cwd sample_fs sample_guess_type decode_utf8
           (ulit "GET /a.txt HTTP/1.1" ++ crlf ++ crlf) sample_webroot_path
           sample_cwd sample_cwd).
  - intros filename. unfold sample_guess_type.
    destruct (extension filename); discriminate.
  - reflexivity.
Defined.

(* ================================================================= *)
(** ** Paths that are missing, special, or behind a missing webroot *)

(** X7. A URI that names nothing under the webroot makes [resolve_uri]
    raise NameError after going back to the starting directory, and the
    dispatch answers with the 404 response. *)
Theorem missing_path_is_not_found
  (fs : node) (guess_type : str -> guess) (decode_text : bytes -> option str)
  (cwd W : location) (webroot uri : str) (ws : list (str * node)) :
  locate fs cwd webroot = Some W ->
  lookup fs W = Some (Dir ws) ->
  stat fs W (ulit "." ++ uri) = None ->
  resolve_uri fs guess_type decode_text uri webroot cwd = (Raise NameError, cwd)
  /\ forall request,
       parse_request request = Ok uri ->
       server_respond fs guess_type decode_text request webroot cwd
       = (Ok response_not_found, cwd).
Proof.
  intros HW Hl Hst.
  pose proof (resolve_uri_missing fs guess_type decode_text cwd W webroot uri ws
                HW Hl Hst) as Hr.
  split; [exact Hr|].
  intros request Hp. unfold server_respond. now rewrite Hp, Hr.
Qed.

Lemma missing_path_is_not_found_witness :
  sample_resolve_uri (ulit "/missing.txt") = (Raise NameError, sample_cwd).
Proof.
  exact (proj1 (missing_path_is_not_found sample_fs sample_guess_type decode_utf8
                  sample_cwd sample_webroot_loc sample_webroot_path
                  (ulit "/missing.txt") _ eq_refl eq_refl eq_refl)).
Defined.

(** X8. A URI that names something that is neither a directory nor a
    regular file makes [resolve_uri] raise the TypeError of line 103 after
    going back to the starting directory, and the dispatch answers with
    the 415 response. *)
Theorem special_file_is_unsupported
  (fs : node) (guess_type : str -> guess) (decode_text : bytes -> option str)
  (cwd W : location) (webroot uri : str) (ws : list (str * node)) :
  locate fs cwd webroot = Some W ->
  lookup fs W = Some (Dir ws) ->
  stat fs W (ulit "." ++ uri) = Some Special ->
  resolve_uri fs guess_type decode_text uri webroot cwd
  = (Raise (TypeError Line103), cwd)
  /\ forall request,
       parse_request request = Ok uri ->
       server_respond fs guess_type decode_text request webroot cwd
       = (Ok response_unsupported_media_type, cwd).
Proof.
  intros HW Hl Hst.
  pose proof (resolve_uri_special fs guess_type decode_text cwd W webroot uri ws
                HW Hl Hst) as Hr.
  split; [exact Hr|].
  intros request Hp. unfold server_respond. now rewrite Hp, Hr.
Qed.

Lemma special_file_is_unsupported_witness :
  sample_resolve_uri (ulit "/pipe") = (Raise (TypeError Line103), sample_cwd).
Proof.
  exact (proj1 (special_file_is_unsupported sample_fs sample_guess_type decode_utf8
                  sample_cwd sample_webroot_loc sample_webroot_path
                  (ulit "/pipe") _ eq_refl eq_refl eq_refl)).
Defined.

(** X9. When [webroot] does not name a directory, [os.chdir(webroot)]
    fails: [resolve_uri] raises OSError whatever the URI, the process has
    not moved, and the dispatch lets the exception through instead of
    answering. *)
Theorem missing_webroot_raises
  (fs : node) (guess_type : str -> guess) (decode_text : bytes -> option str)
  (cwd : location) (webroot uri : str) :
  stat fs cwd webroot = None \/
  (exists data, stat fs cwd webroot = Some (File data)) \/
  stat fs cwd webroot = Some Special ->
  resolve_uri fs guess_type decode_text uri webroot cwd = (Raise OSError, cwd)
  /\ forall request,
       parse_request request = Ok uri ->
       server_respond fs guess_type decode_text request webroot cwd
       = (Raise OSError, cwd).
Proof.
  intros Hst.
  assert (Hr : resolve_uri fs guess_type decode_text uri webroot cwd
               = (Raise OSError, cwd)).
  { apply resolve_uri_no_webroot. intros W ws HW Hl.
    unfold stat in Hst. rewrite HW, Hl in Hst.
    destruct Hst as [H | [[data H] | H]]; discriminate. }
  split; [exact Hr|].
  intros request Hp. unfold server_respond. now rewrite Hp, Hr.
Qed.

Lemma missing_webroot_raises_witness :
  resolve_uri sample_fs sample_guess_type decode_utf8 (ulit "/a.txt")
    (ulit "/srv/nowhere") sample_cwd
  = (Raise OSError, sample_cwd).
Proof.
  refine (proj1 (missing_webroot_raises sample_fs sample_guess_type decode_utf8
                   sample_cwd (ulit "/srv/nowhere") (ulit "/a.txt") _)).
  left. reflexivity.
Defined.

(* ================================================================= *)
(** ** The jail and the working directory *)

Lemma is_prefix_of_app (W suffix : location) : is_prefix_of W (W ++ suffix) = true.
Proof.
  unfold is_prefix_of. induction W as [|c W IH]; simpl; [reflexivity|].
  now rewrite str_eqb_refl, IH.
Qed.

Lemma split_on_dot_cons (uri : str) :
  split_on N.eqb slash (ulit "." ++ uri)
  = (dot :: hd [] (split_on N.eqb slash uri)) :: tl (split_on N.eqb slash uri).
Proof.
  change (ulit "." ++ uri) with (dot :: uri). cbn [split_on].
  change (N.eqb dot slash) with false. cbv iota.
  destruct (split_on N.eqb slash uri); reflexivity.
Qed.

(** X10. For a URI that has no [".."] component and whose first component
    is not ["."] (so for every URI that starts with a slash and has no
    [".."] component), what [resolve_uri] looks up lies under the webroot:
    the dot put before the URI makes the path relative to the webroot. *)
Theorem uri_without_dotdot_stays_in_webroot
  (fs : node) (W loc : location) (uri : str) :
  ~ In (ulit "..") (split_on N.eqb slash uri) ->
  hd [] (split_on N.eqb slash uri) <> ulit "." ->
  locate fs W (ulit "." ++ uri) = Some loc ->
  is_prefix_of W loc = true.
Proof.
  intros Hno Hfirst Hloc.
  assert (Hrel : ~ In (ulit "..") (split_on N.eqb slash (ulit "." ++ uri))).
  { rewrite split_on_dot_cons. intros [H | H].
    - apply Hfirst. change (ulit "..") with (dot :: ulit ".") in H.
      now injection H.
    - apply Hno. destruct (split_on N.eqb slash uri); [destruct H | now right]. }
  destruct (locate_without_dotdot fs W loc uri Hrel Hloc) as [suffix ->].
  apply is_prefix_of_app.
Qed.

Lemma uri_without_dotdot_stays_in_webroot_witness :
  is_prefix_of sample_webroot_loc
    [ulit "srv"; ulit "webroot"; ulit "images"; ulit "pic.png"] = true.
Proof.
  apply (uri_without_dotdot_stays_in_webroot sample_fs sample_webroot_loc _
           (ulit "/images/pic.png")).
  - intros [H | [H | [H | []]]]; discriminate.
  - discriminate.
  - reflexivity.
Defined.

(** X11. With a MIME guess that is always a pair, the process is back in
    the directory it started in whenever [resolve_uri] returns normally,
    and whenever it raises NameError, TypeError or AttributeError. *)
Theorem resolve_uri_restores_cwd_on_these_exits
  (fs : node) (guess_type : str -> guess) (decode_text : bytes -> option str)
  (uri webroot : str) (cwd cwd' : location) (r : result (bytes * bytes)) :
  (forall filename, guess_type filename <> None) ->
  resolve_uri fs guess_type decode_text uri webroot cwd = (r, cwd') ->
  (exists content mimetype, r = Ok (content, mimetype))
  \/ r = Raise NameError
  \/ (exists site, r = Raise (TypeError site))
  \/ r = Raise AttributeError ->
  cwd' = cwd.
Proof.
  intros Hpair Hr Hexit.
  pose proof (resolve_uri_restores_cwd fs guess_type decode_text uri webroot cwd
                Hpair) as Hrestore.
  cbv zeta in Hrestore. rewrite Hr in Hrestore. cbn [fst snd] in Hrestore.
  apply Hrestore;
    destruct Hexit as [(c & m & ->) | [-> | [(site & ->) | ->]]]; discriminate.
Qed.

Lemma resolve_uri_restores_cwd_on_these_exits_witness :
  sample_resolve_uri (ulit "/blob.qqq") = (Raise AttributeError, sample_cwd)
  /\ snd (sample_resolve_uri (ulit "/blob.qqq")) = sample_cwd.
Proof.
  split; [reflexivity|].
  apply (resolve_uri_restores_cwd_on_these_exits sample_fs sample_guess_type
           decode_utf8 (ulit "/blob.qqq") sample_webroot_path sample_cwd
           _ (Raise AttributeError)).
  - intros filename. unfold sample_guess_type.
    destruct (extension filename); discriminate.
  - reflexivity.
  - right; right; right. reflexivity.
Defined.

(* ================================================================= *)
(** ** A slash at the end of the URI *)

Lemma split_on_not_nil {A : Type} (eqb : A -> A -> bool) (c : A) (s : list A) :
  split_on eqb c s <> [].
Proof.
  destruct s as [|x s]; simpl; [discriminate|].
  destruct (eqb x c); [discriminate|].
  destruct (split_on eqb c s); discriminate.
Qed.

Lemma split_on_snoc {A : Type} (eqb : A -> A -> bool) (c : A) (s : list A) :
  eqb c c = true ->
  split_on eqb c (s ++ [c]) = split_on eqb c s ++ [[]].
Proof.
  intros Hc. induction s as [|x s IH]; simpl.
  - now rewrite Hc.
  - rewrite IH. destruct (eqb x c); [reflexivity|].
    pose proof (split_on_not_nil eqb c s) as Hne.
    destruct (split_on eqb c s) as [|p ps]; [now destruct Hne | reflexivity].
Qed.

Lemma walk_app (fs : node) (a b : list str) (cur : location) :
  walk fs cur (a ++ b)
  = match walk fs cur a with
    | Some l => walk fs l b
    | None => None
    end.
Proof.
  revert cur; induction a as [|c a IH]; intros cur; simpl; [reflexivity|].
  destruct (enter fs cur c); [apply IH | reflexivity].
Qed.

Lemma stat_trailing_slash (fs : node) (W : location) (path : str) :
  path <> [] ->
  stat fs W (path ++ [slash])
  = match stat fs W path with
    | Some (Dir es) => Some (Dir es)
    | _ => None
    end
  /\ (forall D es, locate fs W path = Some D -> lookup fs D = Some (Dir es) ->
                   locate fs W (path ++ [slash]) = Some D).
Proof.
  intros Hne. destruct path as [|c path]; [now destruct Hne|].
  assert (Hloc : locate fs W ((c :: path) ++ [slash])
                 = match locate fs W (c :: path) with
                   | Some l => enter fs l []
                   | None => None
                   end).
  { unfold locate. cbn [app].
    change (c :: path ++ [slash]) with ((c :: path) ++ [slash]).
    rewrite (split_on_snoc N.eqb slash (c :: path) eq_refl), walk_app.
    destruct (walk fs _ (split_on N.eqb slash (c :: path))) as [l|];
      [|reflexivity].
    simpl. destruct (enter fs l []); reflexivity. }
  split.
  - unfold stat. rewrite Hloc.
    destruct (locate fs W (c :: path)) as [l|]; [|reflexivity].
    unfold enter. destruct (lookup fs l) as [[d|es|]|] eqn:Hl; try reflexivity.
    cbn. now rewrite Hl.
  - intros D es HD Hl. rewrite Hloc, HD. unfold enter. now rewrite Hl.
Qed.

(** X12. A slash added at the end of a URI: for a regular file the path
    no longer exists and [resolve_uri] raises NameError; for a directory
    the result is the same as without the slash. *)
Theorem resolve_uri_trailing_slash
  (fs : node) (guess_type : str -> guess) (decode_text : bytes -> option str)
  (cwd W : location) (webroot uri : str) (ws : list (str * node)) :
  locate fs cwd webroot = Some W ->
  lookup fs W = Some (Dir ws) ->
  (forall data,
      stat fs W (ulit "." ++ uri) = Some (File data) ->
      resolve_uri fs guess_type decode_text (uri ++ [slash]) webroot cwd
      = (Raise NameError, cwd))
  /\ (forall es,
         stat fs W (ulit "." ++ uri) = Some (Dir es) ->
         resolve_uri fs guess_type decode_text (uri ++ [slash]) webroot cwd
         = resolve_uri fs guess_type decode_text uri webroot cwd).
Proof.
  intros HW Hl.
  assert (Hne : ulit "." ++ uri <> []) by discriminate.
  destruct (stat_trailing_slash fs W (ulit "." ++ uri) Hne) as [Hst Hloc].
  rewrite <- app_assoc in Hst, Hloc.
  split.
  - intros data Hf. rewrite Hf in Hst.
    exact (resolve_uri_missing fs guess_type decode_text cwd W webroot
             (uri ++ [slash]) ws HW Hl Hst).
  - intros es Hd. unfold stat in Hd.
    destruct (locate fs W (ulit "." ++ uri)) as [D|] eqn:HD; [|discriminate].
    rewrite (resolve_uri_dir fs guess_type decode_text cwd W webroot
               (uri ++ [slash]) ws HW Hl D es (Hloc D es eq_refl Hd) Hd).
    now rewrite (resolve_uri_dir fs guess_type decode_text cwd W webroot
                   uri ws HW Hl D es HD Hd).
Qed.

Lemma resolve_uri_trailing_slash_witness :
  sample_resolve_uri (ulit "/a.txt/") = (Raise NameError, sample_cwd)
  /\ sample_resolve_uri (ulit "/images/") = sample_resolve_uri (ulit "/images").
Proof.
  destruct (resolve_uri_trailing_slash sample_fs sample_guess_type decode_utf8
              sample_cwd sample_webroot_loc sample_webroot_path (ulit "/a.txt")
              _ eq_refl eq_refl) as [Hfile _].
  destruct (resolve_uri_trailing_slash sample_fs sample_guess_type decode_utf8
              sample_cwd sample_webroot_loc sample_webroot_path (ulit "/images")
              _ eq_refl eq_refl) as [_ Hdir].
  split.
  - exact (Hfile (blit "hello") eq_refl).
  - exact (Hdir _ eq_refl).
Defined.

(* ================================================================= *)
(** ** Text files *)

Lemma byte_of_to_N (c : byte) : byte_of_N (Byte.to_N c) = c.
Proof. unfold byte_of_N. now rewrite Byte.of_to_N. Qed.

Lemma byte_of_N_cr (n : N) : byte_of_N n = x0d -> n = 13.
Proof.
  unfold byte_of_N. destruct (Byte.of_N n) as [c|] eqn:E; [|discriminate].
  intros ->. apply Byte.to_of_N in E. now rewrite <- E.
Qed.

Lemma decode_utf8_ascii (data : bytes) :
  Forall (fun c => Byte.to_N c < 0x80) data ->
  decode_utf8 data = Some (map Byte.to_N data).
Proof.
  induction 1 as [|c data Hc _ IH]; [reflexivity|].
  cbn [decode_utf8 map]. apply N.ltb_lt in Hc. now rewrite Hc, IH.
Qed.

Lemma encode_utf8_ascii (data : bytes) :
  Forall (fun c => Byte.to_N c < 0x80) data ->
  encode_utf8 (map Byte.to_N data) = Some data.
Proof.
  induction 1 as [|c data Hc _ IH]; [reflexivity|].
  cbn [encode_utf8 map]. unfold encode_char.
  apply N.ltb_lt in Hc. now rewrite Hc, IH, byte_of_to_N.
Qed.

Lemma universal_newlines_without_cr (s : str) :
  ~ In 13 s -> universal_newlines s = s.
Proof.
  induction s as [|c s IH]; intros Hno; [reflexivity|].
  cbn [universal_newlines].
  destruct (N.eqb_spec c 13) as [->|Hc]; [destruct Hno; now left|].
  rewrite IH; [reflexivity|]. intros Hin. apply Hno. now right.
Qed.

Lemma universal_newlines_no_cr_fuel (n : nat) (s : str) :
  (List.length s <= n)%nat -> ~ In 13 (universal_newlines s).
Proof.
  revert s; induction n as [|n IH]; intros s Hlen.
  - destruct s; [intros [] | simpl in Hlen; lia].
  - destruct s as [|c s]; [intros []|].
    cbn [universal_newlines]. simpl in Hlen.
    destruct (N.eqb_spec c 13) as [->|Hc].
    + destruct s as [|d s].
      * intros [H | []]; discriminate.
      * simpl in Hlen. destruct (d =? 10).
        -- intros [H | H]; [discriminate|]. revert H. apply IH. lia.
        -- intros [H | H]; [discriminate|]. revert H. apply IH. simpl. lia.
    + intros [H | H]; [congruence|]. revert H. apply IH. lia.
Qed.

Lemma lor_high_bit_not_cr (h v : N) :
  N.testbit h 7 = true -> N.lor h v <> 13.
Proof.
  intros Hh H.
  assert (Hb : N.testbit (N.lor h v) 7 = true) by (now rewrite N.lor_spec, Hh).
  rewrite H in Hb. discriminate.
Qed.

Lemma some_inj {A : Type} (a c : A) : Some a = Some c -> a = c.
Proof. congruence. Qed.

Lemma encode_char_no_cr (c : N) (bs : bytes) :
  encode_char c = Some bs -> c <> 13 -> ~ In x0d bs.
Proof.
  unfold encode_char. intros H Hc Hin.
  repeat match type of H with
         | (if ?b then _ else _) = _ => destruct b
         end;
    try discriminate; apply some_inj in H; subst bs; cbn [In] in Hin;
    repeat match type of Hin with
      | _ \/ _ => destruct Hin as [Hin | Hin]
      | False => destruct Hin
      | byte_of_N _ = x0d =>
          apply byte_of_N_cr in Hin;
          first [ now apply Hc
                | now apply lor_high_bit_not_cr in Hin ]
      end.
Qed.

Lemma encode_utf8_no_cr (s : str) (bs : bytes) :
  encode_utf8 s = Some bs -> ~ In 13 s -> ~ In x0d bs.
Proof.
  revert bs; induction s as [|c s IH]; intros bs H Hno; simpl in H.
  - injection H as <-. intros [].
  - destruct (encode_char c) as [cs|] eqn:Hc; [|discriminate].
    destruct (encode_utf8 s) as [rest|]; [|discriminate].
    injection H as <-. intros Hin. apply in_app_or in Hin.
    destruct Hin as [Hin | Hin].
    + apply (encode_char_no_cr c cs Hc); [|exact Hin].
      intros ->. apply Hno. now left.
    + apply (IH rest eq_refl); [|exact Hin].
      intros H13. apply Hno. now right.
Qed.

(** X13. With UTF-8 as the text codec, a text/plain file made of ASCII
    bytes with no carriage return is returned byte for byte, as text/plain,
    and the working directory is restored. *)
Theorem ascii_text_file_unchanged
  (fs : node) (guess_type : str -> guess)
  (cwd W : location) (webroot uri : str) (ws : list (str * node))
  (data : bytes) (enc : option str) :
  locate fs cwd webroot = Some W ->
  lookup fs W = Some (Dir ws) ->
  stat fs W (ulit "." ++ uri) = Some (File data) ->
  guess_type (basename (ulit "." ++ uri)) = Some (Some text_plain, enc) ->
  Forall (fun c => Byte.to_N c < 0x80) data ->
  ~ In x0d data ->
  resolve_uri fs guess_type decode_utf8 uri webroot cwd
  = (Ok (data, blit "text/plain"), cwd).
Proof.
  intros HW Hl Hst Hg Hascii Hcr.
  rewrite (resolve_uri_file fs guess_type decode_utf8 cwd W webroot uri ws
             HW Hl data Hst).
  unfold file_outcome. rewrite Hg. cbn [is_text_plain].
  rewrite str_eqb_refl, (decode_utf8_ascii data Hascii).
  rewrite universal_newlines_without_cr.
  - now rewrite (encode_utf8_ascii data Hascii).
  - intros Hin. apply in_map_iff in Hin. destruct Hin as (c & Hc & Hin).
    apply Hcr. replace x0d with c; [exact Hin|].
    rewrite <- (byte_of_to_N c), Hc. reflexivity.
Qed.

Lemma ascii_text_file_unchanged_witness :
  sample_resolve_uri (ulit "/a.txt") = (Ok (blit "hello", blit "text/plain"), sample_cwd).
Proof.
  apply (ascii_text_file_unchanged sample_fs sample_guess_type
           sample_cwd sample_webroot_loc sample_webroot_path (ulit "/a.txt")
           _ (blit "hello") None eq_refl eq_refl eq_refl eq_refl).
  - repeat constructor.
  - intros [H | [H | [H | [H | [H | []]]]]]; discriminate.
Defined.

(** X14. Whatever the text codec, the content returned for a text/plain
    file holds no carriage return byte: text-mode reading has turned every
    line ending into a line feed, so a file with CRLF line endings is not
    returned byte for byte. *)
Theorem text_file_content_has_no_cr
  (fs : node) (guess_type : str -> guess) (decode_text : bytes -> option str)
  (cwd W cwd' : location) (webroot uri : str) (ws : list (str * node))
  (data content mimetype : bytes) (enc : option str) :
  locate fs cwd webroot = Some W ->
  lookup fs W = Some (Dir ws) ->
  stat fs W (ulit "." ++ uri) = Some (File data) ->
  guess_type (basename (ulit "." ++ uri)) = Some (Some text_plain, enc) ->
  resolve_uri fs guess_type decode_text uri webroot cwd
  = (Ok (content, mimetype), cwd') ->
  ~ In x0d content.
Proof.
  intros HW Hl Hst Hg Hr.
  rewrite (resolve_uri_file fs guess_type decode_text cwd W webroot uri ws
             HW Hl data Hst) in Hr.
  unfold file_outcome in Hr. rewrite Hg in Hr. cbn [is_text_plain] in Hr.
  rewrite str_eqb_refl in Hr.
  destruct (decode_text data) as [s|]; [|discriminate].
  destruct (encode_utf8 (universal_newlines s)) as [body|] eqn:He; [|discriminate].
  injection Hr as <- _ _.
  apply (encode_utf8_no_cr _ body He).
  apply (universal_newlines_no_cr_fuel (List.length s)). lia.
Qed.

Lemma text_file_content_has_no_cr_witness :
  ~ In x0d (blit "hello").
Proof.
  exact (text_file_content_has_no_cr sample_fs sample_guess_type decode_utf8
           sample_cwd sample_webroot_loc sample_cwd sample_webroot_path
           (ulit "/a.txt") _ (blit "hello") (blit "hello") (blit "text/plain") None
           eq_refl eq_refl eq_refl eq_refl eq_refl).
Defined.

(* ================================================================= *)
(** ** Reading the request *)

Lemma cons_opt_some (c : N) (r : option str) (s : str) :
  cons_opt c r = Some s -> exists s', r = Some s' /\ s = c :: s'.
Proof.
  destruct r as [s'|]; simpl; [|discriminate].
  intros H. apply some_inj in H. subst s. now exists s'.
Qed.

Ltac decode_tail IH Ha Hlen :=
  apply cons_opt_some in Ha; destruct Ha as (?s' & ?Ht & ->);
  erewrite IH by (first [eassumption | simpl in Hlen; lia]);
  match goal with |- context [decode_utf8 ?b] => destruct (decode_utf8 b) end;
  reflexivity.

Lemma decode_utf8_app_fuel (n : nat) :
  forall a c s,
    (List.length a <= n)%nat ->
    decode_utf8 a = Some s ->
    decode_utf8 (a ++ c)
    = match decode_utf8 c with
      | Some t => Some (s ++ t)
      | None => None
      end.
Proof.
  induction n as [|n IH]; intros a c s Hlen Ha.
  - destruct a; [|simpl in Hlen; lia].
    simpl in Ha. apply some_inj in Ha. subst s.
    simpl. destruct (decode_utf8 c); reflexivity.
  - destruct a as [|b0 t0].
    { simpl in Ha. apply some_inj in Ha. subst s.
      simpl. destruct (decode_utf8 c); reflexivity. }
    cbn [decode_utf8 app] in *.
    destruct (Byte.to_N b0 <? 128); [decode_tail IH Ha Hlen|].
    destruct t0 as [|b1 t1]; [discriminate|]. cbn [app] in *.
    destruct ((194 <=? Byte.to_N b0) && (Byte.to_N b0 <? 224)).
    { destruct (is_cont (Byte.to_N b1)); [|discriminate].
      decode_tail IH Ha Hlen. }
    destruct t1 as [|b2 t2]; [discriminate|]. cbn [app] in *.
    destruct ((224 <=? Byte.to_N b0) && (Byte.to_N b0 <? 240)).
    { match type of Ha with
      | (if ?g then _ else _) = _ => destruct g
      end; [|discriminate].
      decode_tail IH Ha Hlen. }
    destruct t2 as [|b3 t3]; [discriminate|]. cbn [app] in *.
    match type of Ha with
    | (if ?g then _ else _) = _ => destruct g
    end; [|discriminate].
    decode_tail IH Ha Hlen.
Qed.

(** Decoding goes through a cut that falls between two characters. *)
Lemma decode_utf8_app (a c : bytes) (s t : str) :
  decode_utf8 a = Some s ->
  decode_utf8 c = Some t ->
  decode_utf8 (a ++ c) = Some (s ++ t).
Proof.
  intros Ha Hc.
  rewrite (decode_utf8_app_fuel (List.length a) a c s (le_n _) Ha).
  now rewrite Hc.
Qed.

Lemma recv_request_full_chunks (fulls : list bytes) (texts : list str) :
  full_chunks fulls texts ->
  forall request rest,
    recv_request request (fulls ++ rest)
    = recv_request (request ++ List.concat texts) rest.
Proof.
  induction 1 as [|data text fulls texts [Hd Hl] _ IH]; intros request rest.
  - simpl. now rewrite app_nil_r.
  - cbn [app recv_request List.concat]. unfold recv_step. rewrite Hd.
    apply Nat.ltb_ge in Hl. rewrite Hl.
    now rewrite IH, <- app_assoc.
Qed.

Lemma decode_utf8_full_chunks (fulls : list bytes) (texts : list str) :
  full_chunks fulls texts ->
  decode_utf8 (List.concat fulls) = Some (List.concat texts).
Proof.
  induction 1 as [|data text fulls texts [Hd _] _ IH]; [reflexivity|].
  cbn [List.concat]. now apply decode_utf8_app.
Qed.

(** X15. The read loop stops at the first chunk shorter than the buffer:
    the request is the text of the chunks up to that one, which is also
    the decoding of all their bytes taken together, and what the client
    sends after it is never read. *)
Theorem recv_request_stops_at_short_chunk
  (fulls later : list bytes) (texts : list str) (short : bytes) (text : str) :
  full_chunks fulls texts ->
  decode_utf8 short = Some text ->
  (List.length short < bufsize)%nat ->
  recv_request [] (fulls ++ short :: later) = Ok (List.concat texts ++ text)
  /\ decode_utf8 (List.concat fulls ++ short) = Some (List.concat texts ++ text).
Proof.
  intros Hf Hs Hl. split.
  - rewrite (recv_request_full_chunks fulls texts Hf). cbn [app recv_request].
    unfold recv_step. rewrite Hs. apply Nat.ltb_lt in Hl. now rewrite Hl.
  - apply decode_utf8_app; [now apply decode_utf8_full_chunks | exact Hs].
Qed.

Lemma recv_request_stops_at_short_chunk_witness :
  recv_request [] ([repeat x20 1024] ++ blit "GET / HTTP/1.1" :: [blit "ignored"])
  = Ok (List.concat [repeat 32 1024] ++ ulit "GET / HTTP/1.1").
Proof.
  refine (proj1 (recv_request_stops_at_short_chunk
                   [repeat x20 1024] [blit "ignored"] [repeat 32 1024]
                   (blit "GET / HTTP/1.1") (ulit "GET / HTTP/1.1") _ _ _)).
  - constructor; [|constructor]. split; [vm_compute; reflexivity|].
    vm_compute. repeat constructor.
  - reflexivity.
  - vm_compute. repeat constructor.
Defined.

(** X16. When the client closes after chunks that all fill the buffer,
    the loop reads one empty chunk more and the request is their text. *)
Theorem recv_request_until_closed (fulls : list bytes) (texts : list str) :
  full_chunks fulls texts ->
  recv_request [] fulls = Ok (List.concat texts).
Proof.
  intros Hf.
  rewrite <- (app_nil_r fulls), (recv_request_full_chunks fulls texts Hf).
  simpl. now rewrite app_nil_r.
Qed.

Lemma recv_request_until_closed_witness :
  recv_request [] [repeat x20 1024] = Ok (List.concat [repeat 32 1024]).
Proof.
  apply (recv_request_until_closed [repeat x20 1024] [repeat 32 1024]).
  constructor; [|constructor]. split; [vm_compute; reflexivity|].
  vm_compute. repeat constructor.
Defined.

(** X17. Each chunk is decoded on its own: a chunk that is not valid
    UTF-8 by itself makes the read loop raise UnicodeDecodeError, also
    when the cut only fell inside a character of a request that is valid
    as a whole.  Nothing is sent, the connection is closed, and the
    exception leaves [server]. *)
Theorem recv_request_undecodable_chunk
  (fs : node) (guess_type : str -> guess) (decode_text : bytes -> option str)
  (webroot : str) (cwd : location) (c : client)
  (fulls later : list bytes) (texts : list str) (bad : bytes) :
  full_chunks fulls texts ->
  decode_utf8 bad = None ->
  chunks c = fulls ++ bad :: later ->
  recv_request [] (chunks c) = Raise UnicodeDecodeError
  /\ (exists log,
         handle_connection fs guess_type decode_text webroot c cwd
         = (log, {| sent := None; closed := true |}, Raise UnicodeDecodeError, cwd))
  /\ (forall clients,
         exists log,
           server fs guess_type decode_text webroot (c :: clients) cwd
           = (log, [{| sent := None; closed := true |}],
              Crashed UnicodeDecodeError, cwd)).
Proof.
  intros Hf Hb Hc.
  assert (Hr : recv_request [] (chunks c) = Raise UnicodeDecodeError).
  { rewrite Hc, (recv_request_full_chunks fulls texts Hf). cbn [recv_request].
    unfold recv_step. now rewrite Hb. }
  split; [exact Hr|]. split.
  - unfold handle_connection. rewrite Hr. eexists. reflexivity.
  - intros clients. unfold server. cbn [accept_loop].
    unfold handle_connection. rewrite Hr. eexists. reflexivity.
Qed.

Lemma recv_request_undecodable_chunk_witness :
  (exists text, decode_utf8 (split_request_head ++ split_request_tail) = Some text)
  /\ recv_request [] [split_request_head; split_request_tail]
     = Raise UnicodeDecodeError.
Proof.
  split.
  - eexists. vm_compute. reflexivity.
  - exact (proj1 (recv_request_undecodable_chunk sample_fs sample_guess_type
                    decode_utf8 sample_webroot_path sample_cwd
                    {| peer_host := ulit "127.0.0.1"; peer_port := 50000;
                       chunks := [split_request_head; split_request_tail] |}
                    [] [split_request_tail] [] split_request_head
                    (Forall2_nil _) eq_refl eq_refl)).
Defined.

(* ================================================================= *)
(** ** The listener loop *)

Section ListenerFacts.

Variable fs : node.
Variable guess_type : str -> guess.
Variable decode_text : bytes -> option str.
Variable webroot : str.

Let handle := handle_connection fs guess_type decode_text webroot.
Let loop := accept_loop fs guess_type decode_text webroot.

Lemma handle_connection_cases (c : client) (cwd : location) :
  (exists log e cwd',
      handle c cwd = (log, {| sent := None; closed := true |}, Raise e, cwd'))
  \/ (exists log request response cwd',
         recv_request [] (chunks c) = Ok request
         /\ server_respond fs guess_type decode_text request webroot cwd
            = (Ok response, cwd')
         /\ handle c cwd
            = (log, {| sent := Some response; closed := true |}, Ok tt, cwd')).
Proof.
  unfold handle, handle_connection.
  destruct (recv_request [] (chunks c)) as [request|e].
  - destruct (server_respond fs guess_type decode_text request webroot cwd)
      as [[response|e] cwd'] eqn:Hr.
    + right. eexists. exists request, response, cwd'.
      split; [reflexivity | split; [exact Hr | reflexivity]].
    + left. eexists. exists e, cwd'. reflexivity.
  - left. eexists. exists e, cwd. reflexivity.
Qed.



(** X19. With a MIME guess that is always a pair, every response the loop
    sends is the one the dispatch computes, from the directory the server
    was started in, for the request read from that client: no request
    leaves the process in another directory for the next one. *)
Theorem accept_loop_responses_from_start_directory
  (clients : list client) (cwd : location) :
  (forall filename, guess_type filename <> None) ->
  forall log ss e cwd',
    loop clients cwd = (log, ss, e, cwd') ->
    Forall2 (fun c s =>
               forall response,
                 sent s = Some response ->
                 exists request,
                   recv_request [] (chunks c) = Ok request
                   /\ server_respond fs guess_type decode_text request webroot cwd
                      = (Ok response, cwd))
            (firstn (List.length ss) clients) ss.
Proof.
  intros Hpair.
  induction clients as [|c clients IH]; intros log ss e cwd' H.
  - simpl in H. injection H as <- <- <- <-. constructor.
  - unfold loop in H. cbn [accept_loop] in H. fold handle loop in H.
    destruct (handle_connection_cases c cwd)
      as [(l & x & c' & Hh) | (l & request & response & c' & Hrecv & Hresp & Hh)];
      rewrite Hh in H.
    + injection H as <- <- <- <-.
      constructor; [|constructor]. intros r Hr. discriminate.
    + destruct (server_respond_sends fs guess_type decode_text request webroot
                  cwd c' response Hpair Hresp) as [-> _].
      destruct (loop clients cwd) as [[[l' ss'] e'] c''] eqn:Hl.
      injection H as <- <- <- <-.
      pose proof (IH l' ss' e' c'' eq_refl) as Hall.
      cbn [List.length firstn]. constructor; [|exact Hall].
      intros r Hr. simpl in Hr. apply some_inj in Hr. subst r.
      now exists request.
Qed.

End ListenerFacts.


Lemma accept_loop_responses_from_start_directory_witness :
  exists log,
    accept_loop sample_fs sample_guess_type decode_utf8 sample_webroot_path
      [ {| peer_host := ulit "127.0.0.1"; peer_port := 50000;
           chunks := [blit "GET /missing.txt HTTP/1.1"] |};
        {| peer_host := ulit "127.0.0.1"; peer_port := 50001;
           chunks := [blit "GET /blob.qqq HTTP/1.1"] |} ]
      sample_cwd
    = (log,
       [ {| sent := Some response_not_found; closed := true |};
         {| sent := None; closed := true |} ],
       Crashed AttributeError, sample_cwd)
    /\ exists request,
         recv_request [] [blit "GET /missing.txt HTTP/1.1"] = Ok request
         /\ sample_server_respond request = (Ok response_not_found, sample_cwd).
Proof.
  eexists.
  refine ((fun H => conj H _) _); [|vm_compute; reflexivity].
  assert (Hpair : forall filename, sample_guess_type filename <> None).
  { intros filename. unfold sample_guess_type.
    destruct (extension filename); discriminate. }
  pose proof (accept_loop_responses_from_start_directory sample_fs
                sample_guess_type decode_utf8 sample_webroot_path
                _ sample_cwd Hpair _ _ _ _ H) as Hall.
  cbn [List.length firstn] in Hall.
  inversion Hall as [|c0 s0 cs0 ss0 Hfirst _]; subst.
  exact (Hfirst response_not_found eq_refl).
Defined.

(* ================================================================= *)
(** ** From the request to the response *)

(** X20. A GET request for a regular file with a MIME type other than
    text/plain is answered with the 200 response that carries the bytes of
    the file and that type, whatever follows the request line. *)
Theorem get_file_is_served
  (fs : node) (guess_type : str -> guess) (decode_text : bytes -> option str)
  (cwd W : location) (webroot request line uri protocol : str)
  (ws : list (str * node)) (data mtb : bytes) (mt : str) (enc : option str) :
  is_first_line line request ->
  three_tokens line (ulit "GET") uri protocol ->
  locate fs cwd webroot = Some W ->
  lookup fs W = Some (Dir ws) ->
  stat fs W (ulit "." ++ uri) = Some (File data) ->
  guess_type (basename (ulit "." ++ uri)) = Some (Some mt, enc) ->
  mt <> text_plain ->
  encode_utf8 mt = Some mtb ->
  server_respond fs guess_type decode_text request webroot cwd
  = (Ok (response_ok data mtb), cwd).
Proof.
  intros Hline Htok HW Hl Hst Hg Hne Hmt.
  unfold server_respond, parse_request.
  rewrite (first_line_of line request Hline).
  rewrite (py_split_three_tokens line (ulit "GET") uri protocol Htok).
  rewrite str_eqb_refl. cbn [negb].
  rewrite (resolve_uri_file fs guess_type decode_text cwd W webroot uri ws
             HW Hl data Hst).
  unfold file_outcome. rewrite Hg. cbn [is_text_plain].
  now rewrite (str_eqb_neq _ _ Hne), Hmt.
Qed.

Lemma get_file_is_served_witness :
  sample_server_respond (ulit "GET /logo.png HTTP/1.1" ++ crlf ++ ulit "Host: x" ++ crlf ++ crlf)
  = (Ok (response_ok sample_png (blit "image/png")), sample_cwd).
Proof.
  eapply (get_file_is_served sample_fs sample_guess_type decode_utf8
            sample_cwd sample_webroot_loc sample_webroot_path _
            (ulit "GET /logo.png HTTP/1.1") (ulit "/logo.png") (ulit "HTTP/1.1")
            _ sample_png (blit "image/png") (ulit "image/png") None).
  - split; [reflexivity|]. right. eexists. reflexivity.
  - exists [], (ulit " "), (ulit " "), [].
    repeat split; try reflexivity; discriminate.
  - reflexivity.
  - reflexivity.
  - reflexivity.
  - reflexivity.
  - discriminate.
  - reflexivity.
Defined.
